(** * A shallow embedding of the vStack Terraform provider's reconciliation core

    Sources embedded here:
    - [internal/helper/helper.go]: the status registry, [ApplyDefaultSectorSize],
      the unit conversions, [CheckIfVMIsRunning], [PerformAction];
    - the action registry ([ActionVM], [Action], [Execute]);
    - the API wrappers of [internal/vstack_api] and the [CodeUnion] decoding;
    - [internal/helper/map_resp_to_state.go] and [map_disks_to_model.go];
    - the disk reconciler ([UpdateDisks], [updateExistingDisk], [addNewDisk],
      [removeDisksNotInPlan]);
    - [Create] and [Update] of [internal/provider/resource_vstack_vm.go].

    A JSON-RPC request is its method name and its parameter object (the
    fresh uuid and the protocol tag carry no information here).  The remote
    side is an oracle [remote] that, given the calls issued so far and the
    new call, answers with what [DoRequest] produces: a transport, decode or
    envelope error, or the decoded [result] object. *)

From Stdlib Require Import ZArith Lia Bool List Ascii.
From stdpp Require Import base gmap strings pretty.
Import ListNotations.

Open Scope Z_scope.

(** ** Go's int64 *)

Definition int64_min : Z := - 2 ^ 63.
Definition int64_max : Z := 2 ^ 63 - 1.

(** Two's-complement wrap-around of Go's int64 multiplication. *)
Definition wrap64 (x : Z) : Z := (x + 2 ^ 63) mod 2 ^ 64 - 2 ^ 63.

(** Go's int64 division truncates toward zero. *)
Definition div64 (x y : Z) : Z := Z.quot x y.

(** ** Unit conversions (helper.go) *)

Definition ConvertMbToBytes (megaBytesNum : Z) : Z :=
  wrap64 (wrap64 (megaBytesNum * 1024) * 1024).

Definition ConvertBytesToMb (bytesNum : Z) : Z :=
  div64 (div64 bytesNum 1024) 1024.

Definition ConvertGbToBytes (gigaBytesNum : Z) : Z :=
  wrap64 (wrap64 (wrap64 (gigaBytesNum * 1024) * 1024) * 1024).

Definition ConvertBytesToGb (bytesNum : Z) : Z :=
  div64 (div64 (div64 bytesNum 1024) 1024) 1024.

(** ** Status registry (helper.go, [var Status]) *)

Module Status.
Definition Offline : Z := 1.
Definition Starting : Z := 2.
Definition Started : Z := 3.
Definition StartFailed : Z := 4.
Definition Stopping : Z := 5.
Definition StopFailed : Z := 6.
Definition Creating : Z := 7.
Definition Deleting : Z := 8.
Definition Deleted : Z := 9.
Definition Created : Z := 10.
Definition Suspended : Z := 11.
Definition Suspending : Z := 12.
Definition SuspendFailed : Z := 13.
Definition Resuming : Z := 14.
Definition ResumeFailed : Z := 15.
Definition CreateFailed : Z := 16.
Definition DeleteFailed : Z := 17.
End Status.

(** ** [CodeUnion] (the [code] field, an int or a string on the wire) *)

Definition digit_val (c : Ascii.ascii) : option Z :=
  let n := Ascii.nat_of_ascii c in
  if (48 <=? n)%nat && (n <=? 57)%nat then Some (Z.of_nat (n - 48)) else None.

Fixpoint parse_digits (s : string) (acc : Z) : option Z :=
  match s with
  | EmptyString => Some acc
  | String c s' =>
      match digit_val c with
      | Some d => parse_digits s' (acc * 10 + d)
      | None => None
      end
  end.

(** [strconv.ParseInt(s, 10, 64)]: an optional sign, at least one decimal
    digit, and a value in the int64 range. *)
Definition ParseInt10 (s : string) : option Z :=
  let '(neg, body) :=
    match s with
    | String "-"%char r => (true, r)
    | String "+"%char r => (false, r)
    | _ => (false, s)
    end in
  match body with
  | EmptyString => None
  | _ =>
      match parse_digits body 0 with
      | None => None
      | Some v =>
          let v' := if neg then - v else v in
          if (int64_min <=? v') && (v' <=? int64_max) then Some v' else None
      end
  end.

Record CodeUnion := mkCodeUnion {
  AsInt : option Z;
  AsString : option string
}.

Definition CodeAsInt (u : CodeUnion) : Z :=
  match AsInt u with
  | Some i => i
  | None =>
      match AsString u with
      | Some s => match ParseInt10 s with Some v => v | None => 0 end
      | None => 0
      end
  end.

Definition CodeAsString (u : CodeUnion) : string :=
  match AsString u with
  | Some s => s
  | None => match AsInt u with Some i => pretty i | None => "" end
  end.

(** ** Terraform values (internal/models/models.go)

    A [types.Int64] or [types.String] is [option]: [None] is the null or
    the unknown value, and [ValueInt64] / [ValueString] read it as Go's
    zero value.  The code never tells these two apart for such a field:
    it reads it with [ValueInt64] / [ValueString] (which give the zero
    value for both) or tests [IsNull() || IsUnknown()].  The [sector_size]
    object and its two attributes are tested with [IsNull()] alone, so
    they are a [tfval], which keeps null, unknown and known apart (an
    Optional and Computed attribute left out of the configuration is
    planned unknown). *)

Definition ValueInt64 (v : option Z) : Z := default 0 v.
Definition ValueString (v : option string) : string := default "" v.

Inductive tfval (A : Type) : Type :=
| TNull
| TUnknown
| TKnown (v : A).
Arguments TNull {A}.
Arguments TUnknown {A}.
Arguments TKnown {A} v.

#[global] Instance tfval_eq_dec {A} `{EqDecision A} : EqDecision (tfval A).
Proof. solve_decision. Defined.

(** [IsNull()]. *)
Definition tf_IsNull {A} (v : tfval A) : bool :=
  match v with TNull => true | _ => false end.

(** [ValueInt64()] of a [types.Int64]: 0 when null or unknown. *)
Definition tf_ValueInt64 (v : tfval Z) : Z :=
  match v with TKnown z => z | _ => 0 end.

(** The attributes of the [sector_size] object. *)
Record SectorSizeModel := mkSectorSizeModel {
  Logical : tfval Z;
  Physical : tfval Z
}.

#[global] Instance SectorSizeModel_eq_dec : EqDecision SectorSizeModel.
Proof. solve_decision. Defined.

Record DiskModel := mkDiskModel {
  GUID : option string;
  Slot : option Z;
  Size : option Z;            (* GB *)
  IopsLimit : option Z;
  MbpsLimit : option Z;
  Label : option string;
  SectorSize : tfval SectorSizeModel
}.

Record UserModel := mkUserModel {
  SSHPublicKeys : list (option string);
  Password : option string
}.

Record ResolverModel := mkResolverModel {
  NameServers : list (option string);
  Search : option string
}.

Record GuestModel := mkGuestModel {
  Users : option (gmap string UserModel);   (* a Go map: [None] is nil *)
  SSHPasswordAuth : option Z;
  Resolver : option ResolverModel;      (* a Go pointer: [None] is nil *)
  BootCmds : option (list (option string));
  RunCmds : option (list (option string));
  Hostname : option string;
  RamUsed : option Z;
  RamBallonPerformed : option Z;
  RamBallonRequested : option Z
}.

Record VMResourceModel := mkVM {
  ID : option Z;
  Name : option string;
  Description : option string;
  CPUs : option Z;
  RAM : option Z;                       (* MB *)
  CPUPriority : option Z;
  BootMedia : option Z;
  VcpuClass : option Z;
  OsType : option Z;
  OsProfile : option string;
  VdcID : option Z;
  AdminStatus : option Z;
  Node : option Z;
  Uefi : option string;
  CreateCompleted : option Z;
  Locked : option Z;
  RootDataset : option string;
  RootDatasetName : option string;
  PoolSelector : option string;
  Status : option Z;
  OperStatus : option Z;
  Action : option string;
  Guest : option GuestModel;            (* a Go pointer: [None] is nil *)
  Disks : list DiskModel
}.

(** ** Wire types (internal/vstack_api); fields carry their JSON names.
    Response fields that no code path reads are left out. *)

Module vstack_api.

Record SectorSize := mkSectorSize {
  logical : Z;
  physical : Z
}.

Record Disk := mkDisk {
  guid : string;
  size : Z;                           (* bytes *)
  slot : Z;
  iops_limit : option Z;
  mbps_limit : option Z;
  label : string;
  sector_size : option SectorSize
}.

Record VmGuest := mkVmGuest {
  ram_used : Z;
  ram_balloon_performed : Z;
  ram_balloon_requested : Z
}.

(** The [data] object of [vm-get] (and of [vms-create], same shape). *)
Record VmData := mkVmData {
  admin_status : Z;
  boot_media_id : Z;
  cpu_priority : Z;
  cpus : Z;
  create_completed : Z;
  description : option string;
  disks : list Disk;
  id : Z;
  locked : Z;
  name : string;
  node : Z;
  oper_status : Z;
  os_profile : string;
  os_type : Z;
  pool : string;
  ram : Z;                            (* bytes *)
  root_dataset : string;              (* the [%v] rendering of the [interface{}]:
                                         "<nil>" when absent or null *)
  root_dataset_name : string;
  status : Z;
  uefi : string;
  vcpu_class : Z;
  vdc : Z;
  guest : option VmGuest
}.

(** Go's zero value, what a [result] without these fields decodes to; its
    [RootDataset] is a nil [interface{}], which [%v] renders as "<nil>". *)
Definition zero_VmData : VmData :=
  mkVmData 0 0 0 0 0 None [] 0 0 "" 0 0 "" 0 "<nil>" 0 "" "" 0 "" 0 0 None.

End vstack_api.

(** ** Requests and responses *)

(** A JSON parameter value. *)
#[warnings="-register-all"]
Inductive Param :=
| PInt (z : Z)
| PStr (s : string)
| PStrList (l : list string)
| PObj (kv : list (string * Param))
| PList (l : list Param).

(** A JSON-RPC request: method name and parameter object. *)
Record Call := mkCall {
  method : string;
  params : list (string * Param)
}.

Definition BuildJSONRPCRequest (m : string) (p : list (string * Param)) : Call :=
  mkCall m p.

(** The decoded [data] of a [result]. *)
Inductive RData :=
| DNone
| DMsg (message : string)
| DVm (d : vstack_api.VmData).

(** What [DoRequest] yields: an error (marshal, HTTP, decode, or a JSON-RPC
    [error] envelope), or the [result] object with its [code]. *)
Inductive Resp :=
| RErr (e : string)
| ROk (code : CodeUnion) (data : RData).

Definition data_message (d : RData) : string :=
  match d with DMsg m => m | _ => "" end.

Definition data_vm (d : RData) : vstack_api.VmData :=
  match d with DVm v => v | _ => vstack_api.zero_VmData end.

(** [VmsStartStopResult], [VmRemoveResult], ...: a code and a message. *)
Record MsgResult := mkMsgResult {
  mr_code : CodeUnion;
  mr_message : string
}.

(** [VmGetResult] and [VmCreateResult]. *)
Record VmResult := mkVmResult {
  vr_code : CodeUnion;
  vr_data : vstack_api.VmData
}.

(** A diagnostic of [diag.Diagnostics.AddError]. *)
Record Diag := mkDiag {
  summary : string;
  detail : string
}.

(** ** The provider's monad: the trace of issued calls, and a failure that
    aborts the entry point with a diagnostic. *)

Definition M (A : Type) : Type := list Call -> list Call * (Diag + A).

Definition ret {A} (a : A) : M A := fun tr => (tr, inr a).

Definition bind {A B} (m : M A) (k : A -> M B) : M B :=
  fun tr => match m tr with
            | (tr', inl e) => (tr', inl e)
            | (tr', inr a) => k a tr'
            end.

Definition fail {A} (d : Diag) : M A := fun tr => (tr, inl d).

Notation "x <- m ;; k" := (bind m (fun x => k))
  (at level 100, m at level 99, right associativity).

(** Turn a Go [error] into [resp.Diagnostics.AddError(summary, err.Error()); return]. *)
Definition or_fail {A} (summary : string) (r : string + A) : M A :=
  match r with
  | inl e => fail (mkDiag summary e)
  | inr a => ret a
  end.

(** A string of ASCII bytes only. *)
Fixpoint is_ascii (s : string) : bool :=
  match s with
  | EmptyString => true
  | String c s' => (Ascii.nat_of_ascii c <? 128)%nat && is_ascii s'
  end.

(** [strings.ToLower] on an ASCII string (its fast path: every byte 'A'-'Z'
    lowered).  On a string with a non-ASCII byte Go maps each rune with
    [unicode.ToLower], which is not embedded here: this definition leaves
    those bytes alone, so a statement that exposes the lowered form of a
    name assumes the name [is_ascii].  No non-ASCII string lowers to "",
    "start" or "stop" under either, so comparisons with these agree. *)
Definition lower_ascii (c : ascii) : ascii :=
  let n := Ascii.nat_of_ascii c in
  if (65 <=? n)%nat && (n <=? 90)%nat then Ascii.ascii_of_nat (n + 32) else c.

Fixpoint ToLower (s : string) : string :=
  match s with
  | EmptyString => EmptyString
  | String c s' => String (lower_ascii c) (ToLower s')
  end.

Section Remote.

(** The remote platform: its answer to a call, given the calls before it. *)
Variable remote : list Call -> Call -> Resp.

(** [DoRequest]: one call on the wire; [inl] is the error it returns. *)
Definition DoRequest (req : Call) : M (string + (CodeUnion * RData)) :=
  fun tr =>
    (tr ++ [req],
     inr (match remote tr req with
          | RErr e => inl e
          | ROk c d => inr (c, d)
          end)).

(** A wrapper that only checks the error of [DoRequest]
    ([VmsStartStop], [VmsAddDisk], [VmsDiskResize], ...). *)
Definition msg_call (prefix : string) (req : Call) : M (string + MsgResult) :=
  r <- DoRequest req ;;
  ret (match r with
       | inl e => inl (prefix +:+ e)
       | inr (c, d) => inr (mkMsgResult c (data_message d))
       end).

Definition VmsStartStop := msg_call "VmsStartStop: ".
Definition VmsAddDisk := msg_call "VmsAddDisk: ".
Definition VmsDiskResize := msg_call "VmsDiskResize: ".
Definition VmRemoveDisk := msg_call "VmRemoveDisk: ".
Definition VmRatelimitDisk := msg_call "VmRatelimitDisk: ".
Definition VmDiskSetLabel := msg_call "VmDiskSetLabel: ".
Definition VmsAddNic := msg_call "VmsAddNic: DoRequest error: ".
Definition VmRemoveNic := msg_call "VmRemoveNic: ".
Definition VmRatelimitNic := msg_call "VmRatelimitNic: ".

(** [VmGet], [VmCreate]: the error of [DoRequest], then [code != 1]. *)
Definition VmGet (req : Call) : M (string + VmResult) :=
  r <- DoRequest req ;;
  ret (match r with
       | inl e => inl ("VmGet: " +:+ e)
       | inr (c, d) =>
           if CodeAsInt c =? 1 then inr (mkVmResult c (data_vm d))
           else inl ("VmGet returned code=" +:+ CodeAsString c)
       end).

Definition VmCreate (req : Call) : M (string + VmResult) :=
  r <- DoRequest req ;;
  ret (match r with
       | inl e => inl ("VmCreate: " +:+ e)
       | inr (c, d) =>
           if CodeAsInt c =? 1 then inr (mkVmResult c (data_vm d))
           else inl ("VmCreate returned code=" +:+ CodeAsString c)
       end).

Definition VmSet (req : Call) : M (string + MsgResult) :=
  r <- DoRequest req ;;
  ret (match r with
       | inl e => inl ("VmSet: " +:+ e)
       | inr (c, d) =>
           if CodeAsInt c =? 1 then inr (mkMsgResult c (data_message d))
           else inl ("VmSet: unexpected code=" +:+ CodeAsString c)
       end).

Definition VmRemove (req : Call) : M (string + MsgResult) :=
  r <- DoRequest req ;;
  ret (match r with
       | inl e => inl ("VmRemove: " +:+ e)
       | inr (c, d) =>
           if CodeAsInt c =? 1 then inr (mkMsgResult c (data_message d))
           else inl ("VmRemove: unexpected code=" +:+ CodeAsString c)
       end).

(** *** Actions (the [Action] registry, [Execute], [PerformAction]) *)

Record ActionVM := mkActionVM {
  av_OperStatus : Z;
  av_Method : string
}.

Definition Action_lookup (name : string) : option ActionVM :=
  if String.eqb name "start" then Some (mkActionVM Status.Started "vms-restart")
  else if String.eqb name "stop" then Some (mkActionVM Status.Offline "vms-stop")
  else None.

Definition Execute (a : ActionVM) (vmID : Z) : M (option string) :=
  r <- VmsStartStop (BuildJSONRPCRequest (av_Method a) [("id", PInt vmID)]) ;;
  ret (match r with
       | inl e => Some ("SetNicRatelimit: error executing action '" +:+ av_Method a
                        +:+ "' for VM ID " +:+ pretty vmID +:+ ": " +:+ e)
       | inr _ => None
       end).

Definition PerformAction (vmID : Z) (actionName0 : string) : M (option string) :=
  let actionName := ToLower actionName0 in
  match Action_lookup actionName with
  | None => ret (Some ("unsupported action: " +:+ actionName))
  | Some action =>
      e <- Execute action vmID ;;
      ret (match e with
           | Some err => Some ("failed to perform action '" +:+ actionName
                               +:+ "' on VM: " +:+ err)
           | None => None
           end)
  end.

Definition CheckIfVMIsRunning (vmID : Z) : M (string + bool) :=
  r <- VmGet (BuildJSONRPCRequest "vm-get" [("id", PInt vmID)]) ;;
  ret (match r with
       | inl e => inl ("failed to get VM status: " +:+ e)
       | inr vmResp => inr (vstack_api.oper_status (vr_data vmResp) =? Status.Started)
       end).

(** [if err := PerformAction(...); err != nil { AddError(summary, ...); return }] *)
Definition perform_or_fail (summary : string) (vmID : Z) (name : string) : M unit :=
  e <- PerformAction vmID name ;;
  match e with
  | Some err => fail (mkDiag summary err)
  | None => ret tt
  end.

End Remote.

(** ** Sector-size default fill (helper.go, [ApplyDefaultSectorSize]) *)

Definition set_SectorSize (d : DiskModel) (s : tfval SectorSizeModel) : DiskModel :=
  mkDiskModel (GUID d) (Slot d) (Size d) (IopsLimit d) (MbpsLimit d) (Label d) s.

(** [SectorSize.Attributes()]: the attribute values of a known object; the
    map is empty ([None]) for a null or unknown one, so that the lookups
    [attributes["logical"].(types.Int64)] then fail their [ok] check. *)
Definition sector_attributes (o : tfval SectorSizeModel) : option SectorSizeModel :=
  match o with TKnown a => Some a | _ => None end.

(** [types.ObjectValue] with the [logical] and [physical] types: with the
    attributes missing it returns an error and an unknown object. *)
Definition sector_ObjectValue (attributes : option SectorSizeModel) : tfval SectorSizeModel :=
  match attributes with Some a => TKnown a | None => TUnknown end.

Definition ApplyDefaultSectorSize (disk : DiskModel) : DiskModel :=
  if tf_IsNull (SectorSize disk) then
    set_SectorSize disk (TKnown (mkSectorSizeModel (TKnown 512) (TKnown 512)))
  else
    let attributes := sector_attributes (SectorSize disk) in
    let attributes :=
      option_map (fun a =>
        mkSectorSizeModel (if tf_IsNull (Logical a) then TKnown 512 else Logical a)
                          (if tf_IsNull (Physical a) then TKnown 512 else Physical a))
        attributes in
    set_SectorSize disk (sector_ObjectValue attributes).

(** [disk.SectorSize.Equal(stateDisk.SectorSize)]: same state, same
    attribute values. *)
Definition sector_equal (a b : tfval SectorSizeModel) : bool := bool_decide (a = b).

Definition sector_error_detail (slot : Z) : string :=
  "Cannot modify sector_size for disk in slot " +:+ pretty slot +:+
  ". To change sector_size, remove the disk and add a new one with the desired sector_size.".

(** [stateDisksBySlot]: later disks of a slot overwrite earlier ones. *)
Definition disks_by_slot (ds : list DiskModel) : gmap Z DiskModel :=
  foldl (fun m d => <[ValueInt64 (Slot d) := d]> m) ∅ ds.

(** [planDisksSlots]: a [map[int64]bool], absent keys read as [false]. *)
Definition slots_of (ds : list DiskModel) : gmap Z bool :=
  foldl (fun m d => <[ValueInt64 (Slot d) := true]> m) ∅ ds.

Section Reconcile.

Variable remote : list Call -> Call -> Resp.

(** *** [updateExistingDisk] *)
Definition updateExistingDisk (state : VMResourceModel) (disk stateDisk : DiskModel)
    : M unit :=
  let slot := ValueInt64 (Slot disk) in
  (* 1. Check for sector size changes. *)
  if negb (sector_equal (SectorSize disk) (SectorSize stateDisk)) then
    fail (mkDiag "Sector Size Modification Not Allowed" (sector_error_detail slot))
  else
    (* 2. Grow the disk. *)
    u <- (if ValueInt64 (Size disk) >? ValueInt64 (Size stateDisk) then
            r <- VmsDiskResize remote (BuildJSONRPCRequest "vms-disk-resize"
                   [("id", PInt (ValueInt64 (ID state)));
                    ("disk_guid", PStr (ValueString (GUID stateDisk)));
                    ("size", PInt (ConvertGbToBytes (ValueInt64 (Size disk))))]) ;;
            u <- or_fail "Error resizing disk" r ;; ret tt
          else ret tt) ;;
    (* 3. Rate limits. *)
    u <- (if negb (ValueInt64 (MbpsLimit disk) =? ValueInt64 (MbpsLimit stateDisk))
             || negb (ValueInt64 (IopsLimit disk) =? ValueInt64 (IopsLimit stateDisk)) then
            r <- VmRatelimitDisk remote (BuildJSONRPCRequest "vm-ratelimit-disk"
                   [("vm_id", PInt (ValueInt64 (ID state)));
                    ("disk_guid", PStr (ValueString (GUID stateDisk)));
                    ("mbps_limit", PInt (ValueInt64 (MbpsLimit disk)));
                    ("iops_limit", PInt (ValueInt64 (IopsLimit disk)))]) ;;
            u <- or_fail "Error updating disk rate limits" r ;; ret tt
          else ret tt) ;;
    (* 4. Label. *)
    (if negb (String.eqb (ValueString (Label disk)) (ValueString (Label stateDisk))) then
       r <- VmDiskSetLabel remote (BuildJSONRPCRequest "vm-disk-set-label"
              [("vm_id", PInt (ValueInt64 (ID state)));
               ("guid", PStr (ValueString (GUID stateDisk)));
               ("label", PStr (ValueString (Label disk)))]) ;;
       u <- or_fail "Error updating disk label" r ;; ret tt
     else ret tt).

(** *** [addNewDisk] *)

(** [sectorSizeAttributes]: 512/4096, overridden by the disk's non-null
    attributes (read with [ValueInt64()]) when its [sector_size] object is
    not null. *)
Definition add_disk_sector_size (disk : DiskModel) : Z * Z :=
  if negb (tf_IsNull (SectorSize disk)) then
    match sector_attributes (SectorSize disk) with
    | Some attributes =>
        (if negb (tf_IsNull (Logical attributes)) then tf_ValueInt64 (Logical attributes)
         else 512,
         if negb (tf_IsNull (Physical attributes)) then tf_ValueInt64 (Physical attributes)
         else 4096)
    | None => (512, 4096)
    end
  else (512, 4096).

Definition add_disk_request (state : VMResourceModel) (disk : DiskModel) : Call :=
  let '(lg, ph) := add_disk_sector_size disk in
  BuildJSONRPCRequest "vms-add-disk"
    [("vm_id", PInt (ValueInt64 (ID state)));
     ("size", PInt (ConvertGbToBytes (ValueInt64 (Size disk))));
     ("slot", PInt (ValueInt64 (Slot disk)));
     ("label", PStr (ValueString (Label disk)));
     ("sector_size", PObj [("logical", PInt lg); ("physical", PInt ph)]);
     ("iops_limit", PInt (ValueInt64 (IopsLimit disk)));
     ("mbps_limit", PInt (ValueInt64 (MbpsLimit disk)))].

Definition addNewDisk (state : VMResourceModel) (disk : DiskModel) : M unit :=
  r <- VmsAddDisk remote (add_disk_request state disk) ;;
  u <- or_fail "Error adding disk" r ;; ret tt.

(** *** [removeDisksNotInPlan] *)

Definition remove_one_disk (state : VMResourceModel) (planDisksSlots : gmap Z bool)
    (stateDisk : DiskModel) : M unit :=
  let slot := ValueInt64 (Slot stateDisk) in
  let vmid := ValueInt64 (ID state) in
  if negb (default false (planDisksSlots !! slot)) then
    (* 1. Stop the VM. *)
    u <- (if negb (ValueInt64 (OperStatus state) =? Status.Offline) then
            r <- VmsStartStop remote (BuildJSONRPCRequest "vms-stop" [("id", PInt vmid)]) ;;
            u <- or_fail "Error stopping VM before removing disk" r ;; ret tt
          else ret tt) ;;
    (* 2-3. Remove the disk. *)
    r <- VmRemoveDisk remote (BuildJSONRPCRequest "vm-remove-disk"
           [("vm_id", PInt vmid); ("disk_guid", PStr (ValueString (GUID stateDisk)))]) ;;
    u <- or_fail "Error removing disk" r ;;
    (* 4. Restart the VM. *)
    (if negb (ValueInt64 (OperStatus state) =? Status.Offline) then
       r <- VmsStartStop remote (BuildJSONRPCRequest "vms-restart" [("id", PInt vmid)]) ;;
       u <- or_fail "Error restarting VM after removing disk" r ;; ret tt
     else ret tt)
  else ret tt.

Fixpoint remove_loop (state : VMResourceModel) (planDisksSlots : gmap Z bool)
    (ds : list DiskModel) : M unit :=
  match ds with
  | [] => ret tt
  | stateDisk :: rest =>
      u <- remove_one_disk state planDisksSlots stateDisk ;;
      remove_loop state planDisksSlots rest
  end.

Definition removeDisksNotInPlan (state : VMResourceModel) (planDisksSlots : gmap Z bool)
    : M unit :=
  remove_loop state planDisksSlots (Disks state).

(** *** [UpdateDisks] *)

Definition reconcile_one (state : VMResourceModel) (byslot : gmap Z DiskModel)
    (disk : DiskModel) : M unit :=
  match byslot !! ValueInt64 (Slot disk) with
  | Some stateDisk => updateExistingDisk state disk stateDisk
  | None => addNewDisk state disk
  end.

Fixpoint reconcile_loop (state : VMResourceModel) (byslot : gmap Z DiskModel)
    (ds : list DiskModel) : M unit :=
  match ds with
  | [] => ret tt
  | disk :: rest =>
      u <- reconcile_one state byslot disk ;;
      reconcile_loop state byslot rest
  end.

(** [plan.Disks] after step 1, as [UpdateDisks] leaves it. *)
Definition defaulted_disks (plan : VMResourceModel) : list DiskModel :=
  map ApplyDefaultSectorSize (Disks plan).

Definition UpdateDisks (plan state : VMResourceModel) : M unit :=
  let pdisks := defaulted_disks plan in
  let stateDisksBySlot := disks_by_slot (Disks state) in
  let planDisksSlots := slots_of pdisks in
  u <- reconcile_loop state stateDisksBySlot pdisks ;;
  removeDisksNotInPlan state planDisksSlots.

End Reconcile.

(** ** Response-to-state mapping (map_resp_to_state.go, map_disks_to_model.go) *)

(** [validateInt64] on an [int64] argument: only the sign can fail. *)
Definition validateInt64 (v : Z) (fieldName : string) : option string :=
  if v <? 0 then Some ("invalid value for field " +:+ fieldName +:+ ", must be non-negative")
  else None.

(* [validateString] on a Go [string] argument always succeeds; its calls
   are omitted. *)

Definition int64NullIfNil (v : option Z) : option Z := v.

Definition map_one_disk (disk : vstack_api.Disk) : DiskModel :=
  mkDiskModel
    (Some (vstack_api.guid disk))
    (Some (vstack_api.slot disk))
    (Some (ConvertBytesToGb (vstack_api.size disk)))
    (int64NullIfNil (vstack_api.iops_limit disk))
    (int64NullIfNil (vstack_api.mbps_limit disk))
    (Some (vstack_api.label disk))
    (match vstack_api.sector_size disk with
     | Some ss => TKnown (mkSectorSizeModel (TKnown (vstack_api.logical ss))
                                            (TKnown (vstack_api.physical ss)))
     | None => TNull
     end).

Definition validate_disk (i : nat) (disk : vstack_api.Disk) : option string :=
  let f := fun n => "Disk[" +:+ pretty (Z.of_nat i) +:+ "]." +:+ n in
  match validateInt64 (vstack_api.size disk) (f "Size") with
  | Some e => Some e
  | None =>
  match validateInt64 (vstack_api.slot disk) (f "Slot") with
  | Some e => Some e
  | None =>
  match option_map (fun v => validateInt64 v (f "IOPSLimit")) (vstack_api.iops_limit disk) with
  | Some (Some e) => Some e
  | _ =>
  match option_map (fun v => validateInt64 v (f "MBPSLimit")) (vstack_api.mbps_limit disk) with
  | Some (Some e) => Some e
  | _ => None
  end end end end.

Fixpoint map_disks_from (i : nat) (disks : list vstack_api.Disk) : string + list DiskModel :=
  match disks with
  | [] => inr []
  | disk :: rest =>
      match validate_disk i disk with
      | Some e => inl e
      | None =>
          match map_disks_from (S i) rest with
          | inl e => inl e
          | inr ms => inr (map_one_disk disk :: ms)
          end
      end
  end.

(** [MapDisksToModel]: [inl] is the error (the Go slice is then nil). *)
Definition MapDisksToModel (disks : list vstack_api.Disk) : string + list DiskModel :=
  map_disks_from 0 disks.

Definition getActionFromStatus (status : Z) : string :=
  if status =? Status.Started then "start"
  else if (status =? Status.Offline) || (status =? Status.Created) then "stop"
  else "".

(** The guest block: telemetry from the response, customisation inputs
    kept from the prior state. *)
Definition map_guest (g : vstack_api.VmGuest) (prior : option GuestModel) : GuestModel :=
  mkGuestModel
    (match prior with
     | Some pg => if (0 <? map_size (default ∅ (Users pg)))%nat then Users pg else Some ∅
     | None => Some ∅ end)
    (match prior with
     | Some pg => match SSHPasswordAuth pg with Some v => Some v | None => Some 0 end
     | None => Some 0 end)
    (match prior with Some pg => Resolver pg | None => None end)
    (match prior with Some pg => BootCmds pg | None => None end)
    (match prior with Some pg => RunCmds pg | None => None end)
    (match prior with Some pg => Hostname pg | None => None end)
    (Some (vstack_api.ram_used g))
    (Some (vstack_api.ram_balloon_performed g))
    (Some (vstack_api.ram_balloon_requested g)).

Definition first_error (checks : list (option string)) : option string :=
  foldr (fun c acc => match c with Some e => Some e | None => acc end) None checks.

(** [MapRespToState]: the returned state and error. *)
Definition MapRespToState (d : vstack_api.VmData) (state : VMResourceModel)
    : VMResourceModel * option string :=
  let checks :=
    [validateInt64 (vstack_api.id d) "ID";
     validateInt64 (vstack_api.cpus d) "CPUs";
     validateInt64 (vstack_api.ram d) "RAM";
     validateInt64 (vstack_api.cpu_priority d) "CPU Priority";
     validateInt64 (vstack_api.boot_media_id d) "Boot Media ID";
     validateInt64 (vstack_api.vcpu_class d) "Vcpu Class";
     validateInt64 (vstack_api.os_type d) "OS Type";
     validateInt64 (vstack_api.vdc d) "Vdc ID";
     validateInt64 (vstack_api.admin_status d) "Admin Status";
     validateInt64 (vstack_api.node d) "Node";
     validateInt64 (vstack_api.create_completed d) "Create Completed";
     validateInt64 (vstack_api.locked d) "Locked";
     validateInt64 (vstack_api.status d) "Status";
     validateInt64 (vstack_api.oper_status d) "Oper Status"] in
  match first_error checks with
  | Some e => (state, Some e)
  | None =>
      (* the field assignments, made on the [state] value *)
      let state1 :=
        mkVM
          (Some (vstack_api.id d))
          (Some (vstack_api.name d))
          (vstack_api.description d)
          (Some (vstack_api.cpus d))
          (Some (ConvertBytesToMb (vstack_api.ram d)))
          (Some (vstack_api.cpu_priority d))
          (Some (vstack_api.boot_media_id d))
          (Some (vstack_api.vcpu_class d))
          (Some (vstack_api.os_type d))
          (Some (vstack_api.os_profile d))
          (Some (vstack_api.vdc d))
          (Some (vstack_api.admin_status d))
          (Some (vstack_api.node d))
          (Some (vstack_api.uefi d))
          (Some (vstack_api.create_completed d))
          (Some (vstack_api.locked d))
          (Some (vstack_api.root_dataset d))
          (Some (vstack_api.root_dataset_name d))
          (Some (vstack_api.pool d))
          (Some (vstack_api.status d))
          (Some (vstack_api.oper_status d))
          (Some (getActionFromStatus (vstack_api.oper_status d)))
          (match vstack_api.guest d with
           | Some g => Some (map_guest g (Guest state))
           | None => None
           end)
          (Disks state) in
      match MapDisksToModel (vstack_api.disks d) with
      | inl e => (state1, Some e)
      | inr ds =>
          (mkVM (ID state1) (Name state1) (Description state1) (CPUs state1) (RAM state1)
                (CPUPriority state1) (BootMedia state1) (VcpuClass state1) (OsType state1)
                (OsProfile state1) (VdcID state1) (AdminStatus state1) (Node state1)
                (Uefi state1) (CreateCompleted state1) (Locked state1) (RootDataset state1)
                (RootDatasetName state1) (PoolSelector state1) (Status state1)
                (OperStatus state1) (Action state1) (Guest state1) ds, None)
      end
  end.

(** ** Request payloads of [Create] *)

Definition FormatDisks (disks : list DiskModel) : Param :=
  PList (map (fun disk =>
    PObj [("size", PInt (ConvertGbToBytes (ValueInt64 (Size disk))));
          ("slot", PInt (ValueInt64 (Slot disk)));
          ("iops_limit", PInt (ValueInt64 (IopsLimit disk)));
          ("mbps_limit", PInt (ValueInt64 (MbpsLimit disk)));
          ("label", PStr (ValueString (Label disk)))]) disks).

(** The non-empty string values of a list of [types.String]. *)
Definition nonempty_values (l : list (option string)) : list string :=
  filter (fun v => negb (String.eqb v "")) (map ValueString l).

Definition opt_entry (key : string) (present : bool) (v : Param) : list (string * Param) :=
  if present then [(key, v)] else [].

Definition user_payload (user : UserModel) : list (string * Param) :=
  let sshKeys := nonempty_values (SSHPublicKeys user) in
  let pwVal := ValueString (Password user) in
  opt_entry "ssh-authorized-keys" (negb (length sshKeys =? 0)%nat) (PStrList sshKeys) ++
  opt_entry "password" (negb (String.eqb pwVal "")) (PStr pwVal).

(** The sparse [guestPayload] of [Create]. *)
Definition guest_payload (g : GuestModel) : list (string * Param) :=
  let hostname := ValueString (Hostname g) in
  let cmds := fun (l : option (list (option string))) =>
                match l with Some xs => nonempty_values xs | None => [] end in
  let bootCmds := cmds (BootCmds g) in
  let runCmds := cmds (RunCmds g) in
  let sshPasswordAuth := ValueInt64 (SSHPasswordAuth g) in
  let resolverPayload :=
    match Resolver g with
    | Some r =>
        let nsList := nonempty_values (NameServers r) in
        let searchDomain := ValueString (Search r) in
        opt_entry "name_server" (negb (length nsList =? 0)%nat) (PStrList nsList) ++
        opt_entry "search" (negb (String.eqb searchDomain "")) (PStr searchDomain)
    | None => []
    end in
  let usersPayload :=
    omap (fun '(username, user) =>
            match user_payload user with
            | [] => None
            | up => Some (username, PObj up)
            end) (map_to_list (default ∅ (Users g))) in
  opt_entry "hostname" (negb (String.eqb hostname "")) (PStr hostname) ++
  opt_entry "boot_cmds" (negb (length bootCmds =? 0)%nat) (PStrList bootCmds) ++
  opt_entry "run_cmds" (negb (length runCmds =? 0)%nat) (PStrList runCmds) ++
  opt_entry "ssh_password_auth" (negb (sshPasswordAuth =? 0)) (PInt sshPasswordAuth) ++
  opt_entry "resolver" (negb (length resolverPayload =? 0)%nat) (PObj resolverPayload) ++
  opt_entry "users" (negb (length usersPayload =? 0)%nat) (PObj usersPayload).

Definition set_Disks (m : VMResourceModel) (ds : list DiskModel) : VMResourceModel :=
  mkVM (ID m) (Name m) (Description m) (CPUs m) (RAM m) (CPUPriority m) (BootMedia m)
       (VcpuClass m) (OsType m) (OsProfile m) (VdcID m) (AdminStatus m) (Node m) (Uefi m)
       (CreateCompleted m) (Locked m) (RootDataset m) (RootDatasetName m) (PoolSelector m)
       (Status m) (OperStatus m) (Action m) (Guest m) ds.

Definition create_params (plan : VMResourceModel) (guestPayload : list (string * Param))
    : list (string * Param) :=
  [("name", PStr (ValueString (Name plan)));
   ("cpus", PInt (ValueInt64 (CPUs plan)));
   ("ram", PInt (ConvertMbToBytes (ValueInt64 (RAM plan))));
   ("boot_media", PInt (ValueInt64 (BootMedia plan)));
   ("vcpu_class", PInt (ValueInt64 (VcpuClass plan)));
   ("os_type", PInt (ValueInt64 (OsType plan)));
   ("os_profile", PStr (ValueString (OsProfile plan)));
   ("vdc_id", PInt (ValueInt64 (VdcID plan)));
   ("pool_selector", PStr (ValueString (PoolSelector plan)));
   ("disks", FormatDisks (Disks plan));
   ("description", PStr (ValueString (Description plan)))] ++
  opt_entry "guest" (negb (length guestPayload =? 0)%nat) (PObj guestPayload) ++
  [("cpu_priority", PInt (match CPUPriority plan with None => 1 | Some v => v end))].

Definition create_request (plan : VMResourceModel) (g : GuestModel) : Call :=
  BuildJSONRPCRequest "vms-create" (create_params plan (guest_payload g)).

(** [vmParams] of [Update]: the changed top-level fields. *)
Definition update_vm_params (plan state : VMResourceModel) : list (string * Param) :=
  let s := fun (key : string) (f : VMResourceModel -> option string) =>
             opt_entry key (negb (String.eqb (ValueString (f plan)) (ValueString (f state))))
                       (PStr (ValueString (f plan))) in
  let i := fun (key : string) (f : VMResourceModel -> option Z) (v : Z) =>
             opt_entry key (negb (ValueInt64 (f plan) =? ValueInt64 (f state))) (PInt v) in
  s "name" Name ++
  s "description" Description ++
  i "cpus" CPUs (ValueInt64 (CPUs plan)) ++
  i "ram" RAM (ConvertMbToBytes (ValueInt64 (RAM plan))) ++
  i "cpu_priority" CPUPriority (ValueInt64 (CPUPriority plan)) ++
  i "boot_media" BootMedia (ValueInt64 (BootMedia plan)) ++
  i "vcpu_class" VcpuClass (ValueInt64 (VcpuClass plan)) ++
  i "os_type" OsType (ValueInt64 (OsType plan)) ++
  s "os_profile" OsProfile ++
  i "vdc_id" VdcID (ValueInt64 (VdcID plan)) ++
  s "pool_selector" PoolSelector.

(** ** The VM lifecycle controller ([Create], [Update]); acquiring the
    per-VM mutex issues no call and is not modelled. *)

(** [plan] in [Create] after step 2 (the default fill of its disks). *)
Definition create_plan (plan0 : VMResourceModel) : VMResourceModel :=
  set_Disks plan0 (map ApplyDefaultSectorSize (Disks plan0)).

Section Controller.

Variable remote : list Call -> Call -> Resp.

(** The "stop" branch: start first when freshly created or not running. *)
Definition stop_with_bootstrap (vmID knownStatus : Z) : M unit :=
  r <- CheckIfVMIsRunning remote vmID ;;
  isRunning <- or_fail "Error checking VM status" r ;;
  u <- (if (knownStatus =? Status.Created) || negb isRunning then
          perform_or_fail remote "Error starting VM before stopping" vmID "start"
        else ret tt) ;;
  perform_or_fail remote "Error stopping VM" vmID "stop".

Definition read_back (vmID : Z) (onto : VMResourceModel) (where_ : string)
    : M VMResourceModel :=
  r <- VmGet remote (BuildJSONRPCRequest "vm-get" [("id", PInt vmID)]) ;;
  apiResponse <- or_fail "Error on vstack_api.VmGet func" r ;;
  match MapRespToState (vr_data apiResponse) onto with
  | (_, Some mapErr) =>
      fail (mkDiag ("Error mapping response to state in " +:+ where_) mapErr)
  | (updated, None) => ret updated
  end.

(** [Create]; its result is the state it persists.  [plan.Guest] is
    dereferenced without a nil check: a nil guest is a runtime panic. *)
Definition Create (plan0 : VMResourceModel) : M VMResourceModel :=
  (* 2. Apply default sector size for disks *)
  let plan := create_plan plan0 in
  match Guest plan with
  | None => fail (mkDiag "panic" "runtime error: invalid memory address or nil pointer dereference")
  | Some g =>
  (* 3-5. Payloads, then create *)
  r <- VmCreate remote (create_request plan g) ;;
  apiCreateResponse <- or_fail "Error on vstack_api.VmCreate func" r ;;
  (* 6. The new id *)
  let vmID := vstack_api.id (vr_data apiCreateResponse) in
  if vmID =? 0 then fail (mkDiag "Invalid VM ID" "VM ID is null or zero after creation.")
  else
  (* 8. Start / stop *)
  let action := ToLower (ValueString (Action plan)) in
  u <- (if String.eqb action "start" then
          perform_or_fail remote "Error starting VM" vmID "start"
        else if String.eqb action "stop" then
          stop_with_bootstrap vmID (vstack_api.oper_status (vr_data apiCreateResponse))
        else if String.eqb action "" then ret tt
        else fail (mkDiag "Invalid Action" ("Unsupported action '" +:+ action +:+
                     "'. Supported actions are 'start' or 'stop'."))) ;;
  (* 9-10. Read back and map *)
  read_back vmID plan "Create"
  end.

(** [Update]; its result is the state it persists. *)
Definition Update (plan state : VMResourceModel) : M VMResourceModel :=
  let vmID := ValueInt64 (ID plan) in
  if vmID =? 0 then fail (mkDiag "Invalid VM ID" "VM ID is null or zero.")
  else
  (* 1. Disks *)
  u <- UpdateDisks remote plan state ;;
  (* 2-3. Changed parameters *)
  let vmParams := update_vm_params plan state in
  u <- (match vmParams with
        | [] => ret tt
        | _ =>
            r <- VmSet remote (BuildJSONRPCRequest "vm-set"
                   [("id", PInt vmID); ("vm_params", PObj vmParams)]) ;;
            u <- or_fail "Error updating VM parameters" r ;; ret tt
        end) ;;
  (* 4. Start / stop *)
  let action := ToLower (ValueString (Action plan)) in
  u <- (if String.eqb action "" then ret tt
        else if String.eqb action "start" then
          perform_or_fail remote "Error starting VM" vmID "start"
        else if String.eqb action "stop" then
          stop_with_bootstrap vmID (ValueInt64 (OperStatus state))
        else fail (mkDiag "Invalid Action" ("Unsupported action '" +:+ action +:+
                     "'. Supported actions are 'start' and 'stop'."))) ;;
  (* 5-6. Read back and map onto the prior state *)
  read_back vmID state "Update".

End Controller.

(** ** The remaining entry points: [Read], [Delete] and [ImportState] of
    the resource, [Read] of the [vstack_vm_get] data source, and the NIC
    helper [SetNicRatelimit] (nic.go). *)

Section Provider.

Variable remote : list Call -> Call -> Resp.

(** [SetNicRatelimit]: its [error] as [Some]. *)
Definition SetNicRatelimit (vmID portID ratelimitMbits : Z) : M (option string) :=
  r <- VmRatelimitNic remote (BuildJSONRPCRequest "vm-ratelimit-nic"
         [("vm_id", PInt vmID); ("port_id", PInt portID);
          ("ratelimit_mbits", PInt ratelimitMbits)]) ;;
  ret (match r with
       | inl e => Some ("SetNicRatelimit: error from API: " +:+ e)
       | inr _ => None
       end).

(** The resource's [Read]; its result is the state it persists. *)
Definition Read (state : VMResourceModel) : M VMResourceModel :=
  let vmID := ValueInt64 (ID state) in
  if vmID =? 0 then fail (mkDiag "Invalid VM ID" "VM ID is null or zero.")
  else read_back remote vmID state "Read".

(** The resource's [Delete]. *)
Definition Delete (state : VMResourceModel) : M unit :=
  let vmID := ValueInt64 (ID state) in
  if vmID =? 0 then fail (mkDiag "Invalid VM ID" "VM ID is null or zero.")
  else
  (* 1. Check if the VM was running *)
  r <- CheckIfVMIsRunning remote vmID ;;
  wasRunning <- or_fail "Error checking VM status" r ;;
  (* 2. Stop the VM if it was running *)
  u <- (if wasRunning then perform_or_fail remote "Error stopping VM" vmID "stop"
        else ret tt) ;;
  (* 3. Delete the VM *)
  r <- VmRemove remote (BuildJSONRPCRequest "vms-remove"
         [("id", PInt vmID); ("vdc_id", PInt (ValueInt64 (VdcID state)))]) ;;
  u <- or_fail "Error deleting VM" r ;;
  ret tt.


End Provider.

(** [ImportState]: the [id] attribute it sets, or its diagnostic. *)
Definition ImportState (importID : string) : Diag + Z :=
  match ParseInt10 importID with
  | None => inl (mkDiag "Invalid Import ID" ("Expected an integer VM ID, got: " +:+ importID))
  | Some vmID => inr vmID
  end.

(** ** Sample values *)

Definition code_ok : CodeUnion := mkCodeUnion (Some 1) None.

(** A describe/create payload with the given [id] and [oper_status]. *)
Definition sample_vmdata (vmid oper : Z) : vstack_api.VmData :=
  vstack_api.mkVmData 0 0 0 0 0 None [] vmid 0 "" 0 oper "" 0 "" 0 "" "" 0 "" 0 0 None.

(** A server that acknowledges every call with code 1 and answers
    [vm-get] and [vms-create] with [vm]. *)
Definition echo_remote (vm : vstack_api.VmData) : list Call -> Call -> Resp :=
  fun _ c =>
    if String.eqb (method c) "vm-get" || String.eqb (method c) "vms-create"
    then ROk code_ok (DVm vm) else ROk code_ok DNone.

Definition sample_guest : GuestModel :=
  mkGuestModel (Some ∅) None None None None None None None None.

Definition sample_disk (guid : string) (slot size : Z) (ss : tfval SectorSizeModel)
    : DiskModel :=
  mkDiskModel (Some guid) (Some slot) (Some size) None None (Some "") ss.

Definition sample_state (oper : Z) (action : string) (ds : list DiskModel)
    : VMResourceModel :=
  mkVM (Some 7) None None None None None None None None None None None None None
       None None None None None None (Some oper) (Some action) (Some sample_guest) ds.

(** A state whose every attribute is null. *)
Definition null_state : VMResourceModel :=
  mkVM None None None None None None None None None None None None None None
       None None None None None None None None None [].

(** A describe payload whose only disk has a negative size. *)
Definition bad_disk_vmdata : vstack_api.VmData :=
  vstack_api.mkVmData 0 0 0 0 0 None [vstack_api.mkDisk "g1" (-1) 1 None None "" None]
    5 0 "" 0 Status.Started "" 0 "" 0 "" "" 0 "" 0 0 None.

(** ** Classifying calls *)

Definition is_resize (c : Call) : bool := String.eqb (method c) "vms-disk-resize".

Definition is_add (c : Call) : bool := String.eqb (method c) "vms-add-disk".

Definition get_req (vmID : Z) : Call := BuildJSONRPCRequest "vm-get" [("id", PInt vmID)].

Definition action_req (m : string) (vmID : Z) : Call := BuildJSONRPCRequest m [("id", PInt vmID)].

Definition is_action_call (c : Call) : bool :=
  String.eqb (method c) "vms-restart" || String.eqb (method c) "vms-stop".

Definition is_vm_set (c : Call) : bool := String.eqb (method c) "vm-set".

Definition vm_set_req (vmID : Z) (vmParams : list (string * Param)) : Call :=
  BuildJSONRPCRequest "vm-set" [("id", PInt vmID); ("vm_params", PObj vmParams)].

Definition remove_req (vmID vdcID : Z) : Call :=
  BuildJSONRPCRequest "vms-remove" [("id", PInt vmID); ("vdc_id", PInt vdcID)].

Definition is_get (c : Call) : bool := String.eqb (method c) "vm-get".

Definition is_remove_disk (c : Call) : bool := String.eqb (method c) "vm-remove-disk".

Definition remove_disk_req (state : VMResourceModel) (sd : DiskModel) : Call :=
  BuildJSONRPCRequest "vm-remove-disk"
    [("vm_id", PInt (ValueInt64 (ID state))); ("disk_guid", PStr (ValueString (GUID sd)))].

Definition nic_ratelimit_req (vmID portID mbits : Z) : Call :=
  BuildJSONRPCRequest "vm-ratelimit-nic"
    [("vm_id", PInt vmID); ("port_id", PInt portID); ("ratelimit_mbits", PInt mbits)].

(** ** Traces: a computation that only appends calls satisfying [P] to
    the trace, or exactly the calls [n]. *)

Definition appends {A} (P : Call -> Prop) (m : M A) : Prop :=
  forall tr, exists new, fst (m tr) = tr ++ new /\ Forall P new.

Definition appends_exactly {A} (n : list Call) (m : M A) : Prop :=
  forall tr, fst (m tr) = tr ++ n.

(** The slot a disk is keyed by. *)
Definition slot_of (d : DiskModel) : Z := ValueInt64 (Slot d).

(** * Properties *)

(** ** Arithmetic of the conversions *)

Lemma wrap64_small (x : Z) : int64_min <= x <= int64_max -> wrap64 x = x.
Proof.
  unfold wrap64, int64_min, int64_max. intros H.
  rewrite Z.mod_small; lia.
Qed.

Lemma ConvertGbToBytes_small (g : Z) :
  0 <= g -> g * 2 ^ 30 <= int64_max -> ConvertGbToBytes g = g * 2 ^ 30.
Proof.
  intros H0 H1. unfold ConvertGbToBytes.
  unfold int64_max in H1.
  rewrite (wrap64_small (g * 1024)) by (unfold int64_min, int64_max; lia).
  rewrite (wrap64_small (g * 1024 * 1024)) by (unfold int64_min, int64_max; lia).
  rewrite wrap64_small by (unfold int64_min, int64_max; lia).
  lia.
Qed.

Lemma ConvertMbToBytes_small (m : Z) :
  0 <= m -> m * 2 ^ 20 <= int64_max -> ConvertMbToBytes m = m * 2 ^ 20.
Proof.
  intros H0 H1. unfold ConvertMbToBytes.
  unfold int64_max in H1.
  rewrite (wrap64_small (m * 1024)) by (unfold int64_min, int64_max; lia).
  rewrite wrap64_small by (unfold int64_min, int64_max; lia).
  lia.
Qed.

Lemma ConvertBytesToGb_nonneg (b : Z) : 0 <= b -> ConvertBytesToGb b = b / 2 ^ 30.
Proof.
  intros H. unfold ConvertBytesToGb, div64.
  rewrite (Z.quot_div_nonneg b) by lia.
  rewrite (Z.quot_div_nonneg (b / 1024)) by (try apply Z.div_pos; lia).
  rewrite Z.quot_div_nonneg by (try (apply Z.div_pos; [apply Z.div_pos|]); lia).
  rewrite !Z.div_div by lia. reflexivity.
Qed.

Lemma ConvertBytesToMb_nonneg (b : Z) : 0 <= b -> ConvertBytesToMb b = b / 2 ^ 20.
Proof.
  intros H. unfold ConvertBytesToMb, div64.
  rewrite (Z.quot_div_nonneg b) by lia.
  rewrite Z.quot_div_nonneg by (try apply Z.div_pos; lia).
  rewrite Z.div_div by lia. reflexivity.
Qed.

(** ** The proof toolkit for the monad *)

Lemma appends_ret {A} P (a : A) : appends P (ret a).
Proof. intros tr. exists []. rewrite app_nil_r. auto. Qed.

Lemma appends_fail {A} P (d : Diag) : appends (A := A) P (fail d).
Proof. intros tr. exists []. rewrite app_nil_r. auto. Qed.

Lemma appends_bind {A B} P (m : M A) (k : A -> M B) :
  appends P m -> (forall a, appends P (k a)) -> appends P (bind m k).
Proof.
  intros Hm Hk tr. unfold bind.
  destruct (Hm tr) as [n1 [H1 F1]].
  destruct (m tr) as [tr1 [e|a]]; simpl in *.
  - exists n1. auto.
  - destruct (Hk a tr1) as [n2 [H2 F2]]. exists (n1 ++ n2).
    rewrite H2, H1, app_assoc. split; [reflexivity|]. apply Forall_app; auto.
Qed.

Lemma appends_DoRequest (P : Call -> Prop) remote req :
  P req -> appends P (DoRequest remote req).
Proof. intros H tr. exists [req]. simpl. auto. Qed.

Lemma appends_or_fail {A} P s (r : string + A) : appends P (or_fail s r).
Proof. destruct r; [apply appends_fail | apply appends_ret]. Qed.

Lemma appends_msg_call P remote prefix req :
  P req -> appends P (msg_call remote prefix req).
Proof.
  intros H. unfold msg_call. apply appends_bind.
  - by apply appends_DoRequest.
  - intros. apply appends_ret.
Qed.

Lemma appends_VmGet P remote req : P req -> appends P (VmGet remote req).
Proof.
  intros H. unfold VmGet. apply appends_bind.
  - by apply appends_DoRequest.
  - intros. apply appends_ret.
Qed.

Lemma appends_VmSet P remote req : P req -> appends P (VmSet remote req).
Proof.
  intros H. unfold VmSet. apply appends_bind.
  - by apply appends_DoRequest.
  - intros. apply appends_ret.
Qed.

Create HintDb appends.
#[global] Hint Resolve appends_ret appends_fail appends_or_fail appends_msg_call
  appends_VmGet appends_VmSet : appends.

#[global] Hint Extern 2 (appends _ (DoRequest _ _)) =>
  apply appends_DoRequest; reflexivity : appends.

Ltac appends_step :=
  first [ progress cbv beta iota
        | apply appends_bind; [| intros ?]
        | progress (eauto with appends)
        | match goal with |- appends _ (if ?b then _ else _) => destruct b end
        | match goal with |- appends _ (match ?x with _ => _ end) => destruct x end ].

Ltac appends_auto := repeat appends_step.

Lemma appends_mono {A} (P Q : Call -> Prop) (m : M A) :
  (forall c, P c -> Q c) -> appends P m -> appends Q m.
Proof.
  intros HPQ Hm tr. destruct (Hm tr) as [n [H F]]. exists n. split; auto.
  eapply Forall_impl; eauto.
Qed.

Lemma appends_nothing {A} (m : M A) tr :
  appends (fun _ => False) m -> fst (m tr) = tr.
Proof.
  intros Hm. destruct (Hm tr) as [n [H F]].
  destruct n as [|c n]; [by rewrite app_nil_r in H|]. inversion F; contradiction.
Qed.

Lemma exactly_bind {A B} n (m : M A) (k : A -> M B) :
  appends_exactly n m -> (forall a, appends (fun _ => False) (k a)) ->
  appends_exactly n (bind m k).
Proof.
  intros Hm Hk tr. unfold bind. specialize (Hm tr).
  destruct (m tr) as [tr1 [e|a]]; simpl in *; [done|].
  rewrite appends_nothing; auto.
Qed.

Lemma exactly_msg_call remote prefix req :
  appends_exactly [req] (msg_call remote prefix req).
Proof. intros tr. reflexivity. Qed.

Lemma exactly_then {A B} P c (m : M A) (k : A -> M B) :
  appends_exactly [c] m -> (forall a, appends P (k a)) ->
  forall tr, exists rest, fst (bind m k tr) = tr ++ c :: rest /\ Forall P rest.
Proof.
  intros Hm Hk tr. unfold bind. specialize (Hm tr).
  destruct (m tr) as [tr1 [e|a]]; simpl in *.
  - exists []. auto.
  - destruct (Hk a tr1) as [n [H F]]. exists n. rewrite H, Hm, <- app_assoc. auto.
Qed.

(** ** Slots *)

Lemma foldl_insert_notin {V} (f : DiskModel -> V) (l : list DiskModel) (m : gmap Z V) k :
  ~ In k (map slot_of l) ->
  foldl (fun m d => <[ValueInt64 (Slot d) := f d]> m) m l !! k = m !! k.
Proof.
  revert m. induction l as [|x l IH]; intros m Hk; simpl; [done|].
  simpl in Hk. rewrite IH by tauto.
  rewrite lookup_insert_ne; [done|]. unfold slot_of in Hk. tauto.
Qed.

Lemma foldl_insert_in {V} (f : DiskModel -> V) (l : list DiskModel) (m : gmap Z V) d :
  NoDup (map slot_of l) -> In d l ->
  foldl (fun m d => <[ValueInt64 (Slot d) := f d]> m) m l !! slot_of d = Some (f d).
Proof.
  revert m. induction l as [|x l IH]; intros m Hnd Hin; [destruct Hin|].
  simpl in Hnd. inversion Hnd as [|? ? Hx Hnd']; subst.
  destruct Hin as [->|Hin]; simpl.
  - rewrite foldl_insert_notin by (rewrite <- list_elem_of_In; exact Hx).
    unfold slot_of. by rewrite lookup_insert_eq.
  - by apply IH.
Qed.

Lemma foldl_insert_const {V} (v : V) (l : list DiskModel) (m : gmap Z V) k :
  In k (map slot_of l) ->
  foldl (fun m d => <[ValueInt64 (Slot d) := v]> m) m l !! k = Some v.
Proof.
  revert m. induction l as [|x l IH]; intros m Hk; [destruct Hk|]. simpl.
  destruct (in_dec Z.eq_dec k (map slot_of l)) as [Hin|Hnin]; [by apply IH|].
  rewrite (foldl_insert_notin (fun _ => v)) by exact Hnin.
  destruct Hk as [<-|Hk]; [|contradiction]. unfold slot_of. by rewrite lookup_insert_eq.
Qed.

Lemma disks_by_slot_in (l : list DiskModel) d :
  NoDup (map slot_of l) -> In d l -> disks_by_slot l !! slot_of d = Some d.
Proof. intros. unfold disks_by_slot. by apply (foldl_insert_in (fun d => d)). Qed.

Lemma disks_by_slot_none (l : list DiskModel) k :
  disks_by_slot l !! k = None -> ~ In k (map slot_of l).
Proof.
  intros Hnone Hin. unfold disks_by_slot in Hnone.
  assert (Hgen : forall (m : gmap Z DiskModel) l,
            In k (map slot_of l) ->
            is_Some (foldl (fun m d => <[ValueInt64 (Slot d) := d]> m) m l !! k)).
  { clear. intros m l. revert m. induction l as [|x l IH]; intros m Hk; [destruct Hk|].
    simpl. destruct (in_dec Z.eq_dec k (map slot_of l)) as [Hin|Hnin]; [by apply IH|].
    rewrite (foldl_insert_notin (fun d => d)) by exact Hnin.
    destruct Hk as [<-|Hk]; [|contradiction]. unfold slot_of. rewrite lookup_insert_eq. eauto. }
  destruct (Hgen ∅ l Hin) as [x Hx]. congruence.
Qed.

Lemma slots_of_in (l : list DiskModel) k :
  In k (map slot_of l) -> slots_of l !! k = Some true.
Proof. intros. unfold slots_of. by apply foldl_insert_const. Qed.

(** ** The default fill only touches [sector_size] *)

Lemma ApplyDefaultSectorSize_set d :
  ApplyDefaultSectorSize d = set_SectorSize d (SectorSize (ApplyDefaultSectorSize d)).
Proof. destruct d as [? ? ? ? ? ? [| |[[| |?] [| |?]]]]; reflexivity. Qed.


Lemma slot_ApplyDefaultSectorSize d : slot_of (ApplyDefaultSectorSize d) = slot_of d.
Proof. rewrite ApplyDefaultSectorSize_set. by destruct d. Qed.


(** ** The disk reconciler *)

Lemma existsb_Forall_false (f : Call -> bool) (l : list Call) :
  Forall (fun c => f c = false) l -> existsb f l = false.
Proof. induction 1; simpl; [done|]. by rewrite H. Qed.

Lemma reconcile_loop_appends P remote state byslot ds :
  (forall d, In d ds -> appends P (reconcile_one remote state byslot d)) ->
  appends P (reconcile_loop remote state byslot ds).
Proof.
  induction ds as [|d ds IH]; simpl; intros H; [apply appends_ret|].
  apply appends_bind; [apply H; by left|]. intros _. apply IH. intros. apply H. by right.
Qed.

Lemma remove_loop_appends P remote state slots ds :
  (forall d, In d ds -> appends P (remove_one_disk remote state slots d)) ->
  appends P (remove_loop remote state slots ds).
Proof.
  induction ds as [|d ds IH]; simpl; intros H; [apply appends_ret|].
  apply appends_bind; [apply H; by left|]. intros _. apply IH. intros. apply H. by right.
Qed.

Lemma reconcile_loop_fails remote state byslot ds x tr :
  In x ds ->
  (forall tr, exists e, snd (reconcile_one remote state byslot x tr) = inl e) ->
  exists e, snd (reconcile_loop remote state byslot ds tr) = inl e.
Proof.
  revert tr. induction ds as [|y ds IH]; intros tr Hin Hx; [destruct Hin|]. simpl.
  unfold bind.
  destruct (reconcile_one remote state byslot y tr) as [tr1 [e|u]] eqn:E; simpl; [eauto|].
  destruct Hin as [<-|Hin].
  - destruct (Hx tr) as [e He]. rewrite E in He. discriminate.
  - by apply IH.
Qed.

Lemma updateExistingDisk_mismatch remote state disk stateDisk tr :
  SectorSize disk <> SectorSize stateDisk ->
  updateExistingDisk remote state disk stateDisk tr =
    (tr, inl (mkDiag "Sector Size Modification Not Allowed"
                     (sector_error_detail (slot_of disk)))).
Proof.
  intros H. unfold updateExistingDisk, sector_equal.
  rewrite bool_decide_eq_false_2 by exact H. reflexivity.
Qed.


Lemma grow_case remote state disk stateDisk tr :
  SectorSize disk = SectorSize stateDisk ->
  (ValueInt64 (Size disk) >? ValueInt64 (Size stateDisk)) = true ->
  exists rest,
    fst (updateExistingDisk remote state disk stateDisk tr) =
      tr ++ BuildJSONRPCRequest "vms-disk-resize"
              [("id", PInt (ValueInt64 (ID state)));
               ("disk_guid", PStr (ValueString (GUID stateDisk)));
               ("size", PInt (ConvertGbToBytes (ValueInt64 (Size disk))))] :: rest /\
    Forall (fun c => is_resize c = false) rest.
Proof.
  intros Hs Hg. unfold updateExistingDisk, sector_equal.
  rewrite bool_decide_eq_true_2 by exact Hs. cbn [negb orb]. rewrite Hg.
  apply exactly_then.
  - apply exactly_bind; [apply exactly_msg_call|]. intros. appends_auto.
  - intros. appends_auto.
Qed.

Lemma no_grow_case remote state disk stateDisk :
  SectorSize disk = SectorSize stateDisk ->
  (ValueInt64 (Size disk) >? ValueInt64 (Size stateDisk)) = false ->
  appends (fun c => is_resize c = false) (updateExistingDisk remote state disk stateDisk).
Proof.
  intros Hs Hg. unfold updateExistingDisk, sector_equal.
  rewrite bool_decide_eq_true_2 by exact Hs. cbn [negb orb]. rewrite Hg.
  appends_auto.
Qed.

Lemma reconcile_one_mismatch remote state disk stateDisk tr :
  NoDup (map slot_of (Disks state)) -> In stateDisk (Disks state) ->
  slot_of disk = slot_of stateDisk ->
  SectorSize (ApplyDefaultSectorSize disk) <> SectorSize stateDisk ->
  reconcile_one remote state (disks_by_slot (Disks state)) (ApplyDefaultSectorSize disk) tr
    = (tr, inl (mkDiag "Sector Size Modification Not Allowed"
                       (sector_error_detail (slot_of disk)))).
Proof.
  intros Hnd Hin Hslot Hss. unfold reconcile_one.
  change (ValueInt64 (Slot (ApplyDefaultSectorSize disk)))
    with (slot_of (ApplyDefaultSectorSize disk)).
  rewrite slot_ApplyDefaultSectorSize, Hslot, disks_by_slot_in by assumption.
  rewrite updateExistingDisk_mismatch by exact Hss.
  by rewrite slot_ApplyDefaultSectorSize, Hslot.
Qed.

(** ** Claims *)

(** C2. Let [disk] be a planned disk and [stateDisk] the observed disk of the
    same slot (slots of the observed disks distinct), and let the planned
    sector size, after the default fill [UpdateDisks] applies, differ from the
    observed one. Then the reconciliation step for that disk issues no call at
    all (the trace is returned unchanged) and fails with the summary
    "Sector Size Modification Not Allowed" and a detail naming the slot and
    telling the operator to remove the disk and add a new one; and
    [UpdateDisks] as a whole fails. *)
Theorem C2_sector_size_change_rejected remote plan state disk stateDisk tr :
  NoDup (map slot_of (Disks state)) ->
  In disk (Disks plan) -> In stateDisk (Disks state) ->
  slot_of disk = slot_of stateDisk ->
  SectorSize (ApplyDefaultSectorSize disk) <> SectorSize stateDisk ->
  reconcile_one remote state (disks_by_slot (Disks state)) (ApplyDefaultSectorSize disk) tr
    = (tr, inl (mkDiag "Sector Size Modification Not Allowed"
                  ("Cannot modify sector_size for disk in slot " +:+ pretty (slot_of disk) +:+
                   ". To change sector_size, remove the disk and add a new one with the desired sector_size."))) /\
   exists e, snd (UpdateDisks remote plan state tr) = inl e.
Proof.
  intros Hnd Hd Hsd Hslot Hss. split; [by eapply reconcile_one_mismatch|].
  unfold UpdateDisks. cbv zeta. unfold bind.
  destruct (reconcile_loop_fails remote state (disks_by_slot (Disks state))
              (defaulted_disks plan) (ApplyDefaultSectorSize disk) tr) as [e He].
  - unfold defaulted_disks. by apply in_map.
  - intros tr'. rewrite (reconcile_one_mismatch _ _ _ stateDisk) by assumption. eauto.
  - destruct (reconcile_loop _ _ _ _ tr) as [tr1 [e'|u]]; simpl in *; [eauto|discriminate].
Qed.

Lemma C2_sector_size_change_rejected_witness :
  let st := sample_state Status.Started "start"
              [sample_disk "g1" 1 10 (TKnown (mkSectorSizeModel (TKnown 512) (TKnown 512)))] in
  let pl := sample_state Status.Started "start"
              [sample_disk "g1" 1 10 (TKnown (mkSectorSizeModel (TKnown 4096) (TKnown 4096)))] in
  (NoDup (map slot_of (Disks st)) /\
    In (sample_disk "g1" 1 10 (TKnown (mkSectorSizeModel (TKnown 4096) (TKnown 4096)))) (Disks pl) /\
    In (sample_disk "g1" 1 10 (TKnown (mkSectorSizeModel (TKnown 512) (TKnown 512)))) (Disks st)) /\
   (reconcile_one (echo_remote (sample_vmdata 7 Status.Started)) st (disks_by_slot (Disks st))
     (ApplyDefaultSectorSize
        (sample_disk "g1" 1 10 (TKnown (mkSectorSizeModel (TKnown 4096) (TKnown 4096))))) []
   = ([], inl (mkDiag "Sector Size Modification Not Allowed"
           ("Cannot modify sector_size for disk in slot " +:+ pretty 1 +:+
            ". To change sector_size, remove the disk and add a new one with the desired sector_size."))) /\
    exists e, snd (UpdateDisks (echo_remote (sample_vmdata 7 Status.Started)) pl st []) = inl e).
Proof.
  intros st pl. split.
  - split; [|split].
    + apply NoDup_singleton.
    + simpl. auto.
    + simpl. auto.
  - apply (C2_sector_size_change_rejected _ pl st
             (sample_disk "g1" 1 10 (TKnown (mkSectorSizeModel (TKnown 4096) (TKnown 4096))))
             (sample_disk "g1" 1 10 (TKnown (mkSectorSizeModel (TKnown 512) (TKnown 512)))));
      simpl; auto; [apply NoDup_singleton].
Defined.

(** C3. For a planned disk whose slot is found among the observed disks
    ([stateDisk]) with an equal sector size, the calls the reconciliation step
    appends contain a [vms-disk-resize] call exactly when the planned size is
    strictly greater than the observed one; a planned size less than or equal
    to the observed size never issues a resize. *)
Theorem C3_resize_iff_grow remote state disk stateDisk tr :
  disks_by_slot (Disks state) !! slot_of disk = Some stateDisk ->
  SectorSize disk = SectorSize stateDisk ->
  exists new,
    fst (reconcile_one remote state (disks_by_slot (Disks state)) disk tr) = tr ++ new /\
    (existsb is_resize new = true <-> ValueInt64 (Size stateDisk) < ValueInt64 (Size disk)).
Proof.
  intros Hl Hs. unfold reconcile_one. change (ValueInt64 (Slot disk)) with (slot_of disk).
  rewrite Hl.
  destruct (ValueInt64 (Size disk) >? ValueInt64 (Size stateDisk)) eqn:Hg.
  - destruct (grow_case remote state disk stateDisk tr Hs Hg) as [rest [E F]].
    exists (BuildJSONRPCRequest "vms-disk-resize"
              [("id", PInt (ValueInt64 (ID state)));
               ("disk_guid", PStr (ValueString (GUID stateDisk)));
               ("size", PInt (ConvertGbToBytes (ValueInt64 (Size disk))))] :: rest).
    split; [exact E|]. apply Z.gtb_lt in Hg. split; [intros _; lia|reflexivity].
  - destruct (no_grow_case remote state disk stateDisk Hs Hg tr) as [new [E F]].
    exists new. split; [exact E|]. rewrite existsb_Forall_false by exact F.
    rewrite Z.gtb_ltb in Hg. apply Z.ltb_ge in Hg. split; [discriminate|lia].
Qed.

Lemma C3_resize_iff_grow_witness :
  let st := sample_state Status.Offline "stop"
              [sample_disk "g1" 1 10 (TKnown (mkSectorSizeModel (TKnown 512) (TKnown 512)))] in
  let d := sample_disk "g1" 1 20 (TKnown (mkSectorSizeModel (TKnown 512) (TKnown 512))) in
  let sd := sample_disk "g1" 1 10 (TKnown (mkSectorSizeModel (TKnown 512) (TKnown 512))) in
  (disks_by_slot (Disks st) !! slot_of d = Some sd /\ SectorSize d = SectorSize sd) /\
  exists new,
    fst (reconcile_one (echo_remote (sample_vmdata 7 Status.Offline)) st
           (disks_by_slot (Disks st)) d []) = [] ++ new /\
    (existsb is_resize new = true <-> ValueInt64 (Size sd) < ValueInt64 (Size d)).
Proof.
  intros st d sd. split; [split; reflexivity|].
  apply C3_resize_iff_grow; reflexivity.
Defined.

(** C9. Whenever [MapRespToState] succeeds, the action it stores is derived
    from the observed operational status: [started] gives "start",
    [offline] or [created] gives "stop", and every other status gives the
    empty string. *)
Theorem C9_action_from_status d st :
  snd (MapRespToState d st) = None ->
  (vstack_api.oper_status d = Status.Started ->
     Action (fst (MapRespToState d st)) = Some "start") /\
  (vstack_api.oper_status d = Status.Offline \/ vstack_api.oper_status d = Status.Created ->
     Action (fst (MapRespToState d st)) = Some "stop") /\
  (vstack_api.oper_status d <> Status.Started ->
   vstack_api.oper_status d <> Status.Offline ->
   vstack_api.oper_status d <> Status.Created ->
     Action (fst (MapRespToState d st)) = Some "").
Proof.
  unfold MapRespToState. cbv zeta.
  destruct (first_error _); [discriminate|].
  destruct (MapDisksToModel _); [discriminate|]. intros _. simpl.
  unfold getActionFromStatus.
  split; [|split].
  - intros ->. reflexivity.
  - intros [-> | ->]; reflexivity.
  - intros H1 H2 H3. apply Z.eqb_neq in H1, H2, H3. by rewrite H1, H2, H3.
Qed.

Lemma C9_action_from_status_witness :
  snd (MapRespToState (sample_vmdata 7 Status.Created) (sample_state 0 "" [])) = None /\
  (vstack_api.oper_status (sample_vmdata 7 Status.Created) = Status.Offline \/
   vstack_api.oper_status (sample_vmdata 7 Status.Created) = Status.Created ->
     Action (fst (MapRespToState (sample_vmdata 7 Status.Created) (sample_state 0 "" [])))
       = Some "stop").
Proof.
  split; [reflexivity|].
  apply (C9_action_from_status (sample_vmdata 7 Status.Created) (sample_state 0 "" [])).
  reflexivity.
Defined.

(** C10. For non-negative gigabyte and megabyte counts that do not overflow
    int64, converting to bytes and back is the identity. The other way round
    a byte count [b] is truncated: converting it to GB (MB) and back gives at
    most [b], and exactly [b] if and only if [b] is a multiple of 2^30 (2^20);
    so 2^30 + 1 and 2^30 bytes map to the same GB size, and 2^20 + 1 and
    2^20 bytes to the same MB size. *)
Theorem C10_size_conversions (g m b : Z) :
  0 <= g -> g * 2 ^ 30 <= int64_max ->
  0 <= m -> m * 2 ^ 20 <= int64_max ->
  0 <= b <= int64_max ->
  ConvertBytesToGb (ConvertGbToBytes g) = g /\
  ConvertBytesToMb (ConvertMbToBytes m) = m /\
  ConvertGbToBytes (ConvertBytesToGb b) <= b /\
  (ConvertGbToBytes (ConvertBytesToGb b) = b <-> b mod 2 ^ 30 = 0) /\
  ConvertMbToBytes (ConvertBytesToMb b) <= b /\
  (ConvertMbToBytes (ConvertBytesToMb b) = b <-> b mod 2 ^ 20 = 0) /\
  ConvertBytesToGb (2 ^ 30 + 1) = ConvertBytesToGb (2 ^ 30) /\
  ConvertBytesToMb (2 ^ 20 + 1) = ConvertBytesToMb (2 ^ 20).
Proof.
  intros Hg0 Hg1 Hm0 Hm1 [Hb0 Hb1].
  assert (Dg := Z.div_mod b (2 ^ 30) ltac:(lia)).
  assert (Bg := Z.mod_pos_bound b (2 ^ 30) ltac:(lia)).
  assert (Pg := Z.div_pos b (2 ^ 30) Hb0 ltac:(lia)).
  assert (Dm := Z.div_mod b (2 ^ 20) ltac:(lia)).
  assert (Bm := Z.mod_pos_bound b (2 ^ 20) ltac:(lia)).
  assert (Pm := Z.div_pos b (2 ^ 20) Hb0 ltac:(lia)).
  rewrite ConvertGbToBytes_small, ConvertBytesToGb_nonneg by lia.
  rewrite ConvertMbToBytes_small, ConvertBytesToMb_nonneg by lia.
  rewrite ConvertBytesToGb_nonneg, ConvertBytesToMb_nonneg by lia.
  rewrite !Z.div_mul by lia.
  rewrite ConvertGbToBytes_small by (unfold int64_max in *; lia).
  rewrite ConvertMbToBytes_small by (unfold int64_max in *; lia).
  split; [reflexivity|]. split; [reflexivity|].
  split; [lia|]. split; [lia|]. split; [lia|]. split; [lia|].
  split; reflexivity.
Qed.

Lemma C10_size_conversions_witness :
  (0 <= 3 /\ 3 * 2 ^ 30 <= int64_max /\ 0 <= 5 /\ 5 * 2 ^ 20 <= int64_max /\
   0 <= 2 ^ 30 + 7 <= int64_max) /\
  ConvertBytesToGb (ConvertGbToBytes 3) = 3 /\
  ConvertBytesToMb (ConvertMbToBytes 5) = 5 /\
  ConvertGbToBytes (ConvertBytesToGb (2 ^ 30 + 7)) <= 2 ^ 30 + 7 /\
  (ConvertGbToBytes (ConvertBytesToGb (2 ^ 30 + 7)) = 2 ^ 30 + 7 <->
     (2 ^ 30 + 7) mod 2 ^ 30 = 0) /\
  ConvertMbToBytes (ConvertBytesToMb (2 ^ 30 + 7)) <= 2 ^ 30 + 7 /\
  (ConvertMbToBytes (ConvertBytesToMb (2 ^ 30 + 7)) = 2 ^ 30 + 7 <->
     (2 ^ 30 + 7) mod 2 ^ 20 = 0) /\
  ConvertBytesToGb (2 ^ 30 + 1) = ConvertBytesToGb (2 ^ 30) /\
  ConvertBytesToMb (2 ^ 20 + 1) = ConvertBytesToMb (2 ^ 20).
Proof.
  split; [unfold int64_max; lia|].
  apply C10_size_conversions; unfold int64_max; lia.
Defined.

(** C1. A response whose code is not the success code 1 is not always
    reported as a failure: the nine wrappers [VmsStartStop], [VmsAddDisk],
    [VmsDiskResize], [VmRemoveDisk], [VmRatelimitDisk], [VmDiskSetLabel],
    [VmsAddNic], [VmRemoveNic] and [VmRatelimitNic] return that response as a
    success, and [or_fail] passes it on to the caller as a success; only
    [VmGet] (like [VmCreate], [VmSet] and [VmRemove]) turns it into an
    error. *)
Theorem C1_nonsuccess_code_accepted remote req tr c d :
  remote tr req = ROk c d -> CodeAsInt c <> 1 ->
  (forall w, In w [VmsStartStop remote; VmsAddDisk remote; VmsDiskResize remote;
                   VmRemoveDisk remote; VmRatelimitDisk remote; VmDiskSetLabel remote;
                   VmsAddNic remote; VmRemoveNic remote; VmRatelimitNic remote] ->
     w req tr = (tr ++ [req], inr (inr (mkMsgResult c (data_message d)))) /\
     forall summary,
       snd (bind (w req) (or_fail summary) tr) = inr (mkMsgResult c (data_message d))) /\
  snd (VmGet remote req tr) = inr (inl ("VmGet returned code=" +:+ CodeAsString c)).
Proof.
  intros Hr Hc. split.
  - intros w Hw.
    assert (E : w req tr = (tr ++ [req], inr (inr (mkMsgResult c (data_message d))))).
    { repeat (destruct Hw as [<-|Hw];
              [cbv [msg_call VmsStartStop VmsAddDisk VmsDiskResize
                 VmRemoveDisk VmRatelimitDisk VmDiskSetLabel VmsAddNic VmRemoveNic
                 VmRatelimitNic bind DoRequest ret]; rewrite Hr; reflexivity|]).
      destruct Hw. }
    split; [exact E|]. intros summary. unfold bind. rewrite E. reflexivity.
  - unfold VmGet, bind, DoRequest, ret. simpl. rewrite Hr.
    apply Z.eqb_neq in Hc. by rewrite Hc.
Qed.

Lemma C1_nonsuccess_code_accepted_witness :
  let remote := fun (_ : list Call) (_ : Call) =>
                  ROk (mkCodeUnion (Some 0) None) (DMsg "VM is locked") in
  let req := BuildJSONRPCRequest "vms-stop" [("id", PInt 7)] in
  (remote [] req = ROk (mkCodeUnion (Some 0) None) (DMsg "VM is locked") /\
   CodeAsInt (mkCodeUnion (Some 0) None) <> 1) /\
  (forall w, In w [VmsStartStop remote; VmsAddDisk remote; VmsDiskResize remote;
                   VmRemoveDisk remote; VmRatelimitDisk remote; VmDiskSetLabel remote;
                   VmsAddNic remote; VmRemoveNic remote; VmRatelimitNic remote] ->
     w req [] = ([] ++ [req], inr (inr (mkMsgResult (mkCodeUnion (Some 0) None)
                                        (data_message (DMsg "VM is locked"))))) /\
     forall summary,
       snd (bind (w req) (or_fail summary) []) =
         inr (mkMsgResult (mkCodeUnion (Some 0) None) (data_message (DMsg "VM is locked")))) /\
  snd (VmGet remote req []) =
    inr (inl ("VmGet returned code=" +:+ CodeAsString (mkCodeUnion (Some 0) None))).
Proof.
  intros remote req. split; [split; [reflexivity| vm_compute; discriminate]|].
  apply C1_nonsuccess_code_accepted; [reflexivity| vm_compute; discriminate].
Defined.

(** C4. Disk removal does not bracket the removal by "the VM is running"
    (operational status [started]): the VM below is in status [created],
    not running, yet removing its disk in slot 1 (absent from the plan)
    issues [vms-stop] before [vm-remove-disk] and [vms-restart] after it.
    The stop and the restart are guarded by [status != offline]. *)
Theorem C4_removal_stops_vm_not_running :
  ValueInt64 (OperStatus (sample_state Status.Created "stop"
                            [sample_disk "g1" 1 10 TNull])) <> Status.Started /\
  fst (UpdateDisks (echo_remote (sample_vmdata 7 Status.Created))
         (sample_state Status.Created "stop" [])
         (sample_state Status.Created "stop" [sample_disk "g1" 1 10 TNull]) []) =
    [BuildJSONRPCRequest "vms-stop" [("id", PInt 7)];
     BuildJSONRPCRequest "vm-remove-disk" [("vm_id", PInt 7); ("disk_guid", PStr "g1")];
     BuildJSONRPCRequest "vms-restart" [("id", PInt 7)]].
Proof. split; [vm_compute; discriminate | vm_compute; reflexivity]. Qed.

(** The top-level validations return the input state: e.g. a negative
    [cpus]. *)
Lemma MapRespToState_cpus_error_keeps_state d st :
  vstack_api.cpus d < 0 -> fst (MapRespToState d st) = st.
Proof.
  intros Hc. unfold MapRespToState. cbv zeta. simpl first_error.
  unfold validateInt64 at 1 2.
  destruct (vstack_api.id d <? 0); [reflexivity|].
  apply Z.ltb_lt in Hc. rewrite Hc. reflexivity.
Qed.

(** C5. When the disk list of the response fails validation,
    [MapRespToState] returns the error together with a state in which the
    top-level fields have already been overwritten (here the ID becomes 5 and
    the action "start"), not the input state. The validations of the
    top-level fields, in contrast, return the input state unchanged. *)
Theorem C5_partial_state_on_disk_error :
  snd (MapRespToState bad_disk_vmdata (sample_state Status.Offline "stop" [])) =
    Some "invalid value for field Disk[0].Size, must be non-negative" /\
  fst (MapRespToState bad_disk_vmdata (sample_state Status.Offline "stop" [])) <>
    sample_state Status.Offline "stop" [] /\
  ID (fst (MapRespToState bad_disk_vmdata (sample_state Status.Offline "stop" []))) = Some 5 /\
  Action (fst (MapRespToState bad_disk_vmdata (sample_state Status.Offline "stop" []))) =
    Some "start".
Proof.
  split; [vm_compute; reflexivity|]. split; [vm_compute; discriminate|].
  split; vm_compute; reflexivity.
Qed.

(** ** Additions carry the filled sector sizes *)

Lemma updateExistingDisk_no_add remote state disk stateDisk :
  appends (fun c => is_add c = false) (updateExistingDisk remote state disk stateDisk).
Proof. unfold updateExistingDisk. cbv zeta. appends_auto. Qed.

Lemma addNewDisk_calls remote state disk :
  appends (fun c => c = add_disk_request state disk) (addNewDisk remote state disk).
Proof. unfold addNewDisk. appends_auto. Qed.

Lemma remove_one_disk_no_add remote state slots d :
  appends (fun c => is_add c = false) (remove_one_disk remote state slots d).
Proof. unfold remove_one_disk. cbv zeta. appends_auto. Qed.

Lemma reconcile_loop_add_calls remote state byslot ds :
  appends (fun c => is_add c = true ->
             exists d, In d ds /\ byslot !! slot_of d = None /\ c = add_disk_request state d)
    (reconcile_loop remote state byslot ds).
Proof.
  apply reconcile_loop_appends. intros d Hin. unfold reconcile_one.
  change (ValueInt64 (Slot d)) with (slot_of d).
  destruct (byslot !! slot_of d) as [sd|] eqn:El.
  - eapply appends_mono; [|apply updateExistingDisk_no_add].
    intros c Hc Ht. congruence.
  - eapply appends_mono; [|apply addNewDisk_calls].
    intros c -> _. eauto.
Qed.

Lemma add_disk_request_defaulted state d :
  add_disk_request state (ApplyDefaultSectorSize d) =
    BuildJSONRPCRequest "vms-add-disk"
      [("vm_id", PInt (ValueInt64 (ID state)));
       ("size", PInt (ConvertGbToBytes (ValueInt64 (Size d))));
       ("slot", PInt (slot_of d));
       ("label", PStr (ValueString (Label d)));
       ("sector_size",
          PObj [("logical", PInt (match SectorSize d with
                                  | TKnown s => match Logical s with
                                                | TNull => 512 | v => tf_ValueInt64 v end
                                  | TNull => 512
                                  | TUnknown => 512 end));
                ("physical", PInt (match SectorSize d with
                                   | TKnown s => match Physical s with
                                                 | TNull => 512 | v => tf_ValueInt64 v end
                                   | TNull => 512
                                   | TUnknown => 4096 end))]);
       ("iops_limit", PInt (ValueInt64 (IopsLimit d)));
       ("mbps_limit", PInt (ValueInt64 (MbpsLimit d)))].
Proof. destruct d as [? ? ? ? ? ? [| |[[| |?] [| |?]]]]; reflexivity. Qed.

(** C6. Every [vms-add-disk] call [UpdateDisks] issues is for a planned
    disk whose slot is absent from the observed disks, and carries the disk
    size converted from GB to bytes and the sector sizes below.  A disk whose
    configuration leaves [sector_size] out reaches [UpdateDisks] with an
    unknown [sector_size] (the attribute is Optional and Computed, and
    [UseStateForUnknown] finds no prior value for a new list element); the
    default fill keeps it unknown, and the call carries logical = 512 and
    physical = 4096.  A known [sector_size] sends its attributes, a null
    attribute filled with 512 (an unknown one reads as 0); a null
    [sector_size] is filled with 512/512. *)
Theorem C6_add_disk_payload remote plan state tr :
  exists new, fst (UpdateDisks remote plan state tr) = tr ++ new /\
  Forall (fun c => method c = "vms-add-disk" ->
    exists d, In d (Disks plan) /\ ~ In (slot_of d) (map slot_of (Disks state)) /\
      c = BuildJSONRPCRequest "vms-add-disk"
        [("vm_id", PInt (ValueInt64 (ID state)));
         ("size", PInt (ConvertGbToBytes (ValueInt64 (Size d))));
         ("slot", PInt (slot_of d));
         ("label", PStr (ValueString (Label d)));
         ("sector_size",
            PObj [("logical", PInt (match SectorSize d with
                                    | TKnown s => match Logical s with
                                                  | TNull => 512 | v => tf_ValueInt64 v end
                                    | TNull => 512
                                    | TUnknown => 512 end));
                  ("physical", PInt (match SectorSize d with
                                     | TKnown s => match Physical s with
                                                   | TNull => 512 | v => tf_ValueInt64 v end
                                     | TNull => 512
                                     | TUnknown => 4096 end))]);
         ("iops_limit", PInt (ValueInt64 (IopsLimit d)));
         ("mbps_limit", PInt (ValueInt64 (MbpsLimit d)))]) new.
Proof.
  revert tr. unfold UpdateDisks. cbv zeta. apply appends_bind.
  - eapply appends_mono; [|apply reconcile_loop_add_calls].
    intros c Hc Hm. destruct Hc as [d [Hin [Hnone ->]]].
    { unfold is_add. rewrite Hm. reflexivity. }
    unfold defaulted_disks in Hin. apply in_map_iff in Hin as [d0 [<- Hin]].
    exists d0. split; [exact Hin|]. split.
    + rewrite <- slot_ApplyDefaultSectorSize. by apply disks_by_slot_none.
    + apply add_disk_request_defaulted.
  - intros _. unfold removeDisksNotInPlan. apply remove_loop_appends. intros d _.
    eapply appends_mono; [|apply remove_one_disk_no_add].
    intros c Hc Hm. unfold is_add in Hc. rewrite Hm in Hc. discriminate.
Qed.

(** ** Running the controller step by step *)

Lemma bind_inr {A B} (m : M A) (k : A -> M B) tr tr1 a :
  m tr = (tr1, inr a) -> bind m k tr = k a tr1.
Proof. intros H. unfold bind. by rewrite H. Qed.

Lemma bind_trace_inl {A B} (m : M A) (k : A -> M B) tr tr1 e :
  m tr = (tr1, inl e) -> bind m k tr = (tr1, inl e).
Proof. intros H. unfold bind. by rewrite H. Qed.

Lemma VmGet_ok remote req tr c d :
  remote tr req = ROk c d -> CodeAsInt c = 1 ->
  VmGet remote req tr = (tr ++ [req], inr (inr (mkVmResult c (data_vm d)))).
Proof. intros Hr Hc. unfold VmGet, bind, DoRequest, ret. rewrite Hr, Hc. reflexivity. Qed.

Lemma VmCreate_ok remote req tr c d :
  remote tr req = ROk c d -> CodeAsInt c = 1 ->
  VmCreate remote req tr = (tr ++ [req], inr (inr (mkVmResult c (data_vm d)))).
Proof. intros Hr Hc. unfold VmCreate, bind, DoRequest, ret. rewrite Hr, Hc. reflexivity. Qed.

Lemma perform_or_fail_trace remote summary vmID name a tr :
  Action_lookup (ToLower name) = Some a ->
  fst (perform_or_fail remote summary vmID name tr) = tr ++ [action_req (av_Method a) vmID] /\
  (snd (perform_or_fail remote summary vmID name tr) = inr tt <->
   exists c d, remote tr (action_req (av_Method a) vmID) = ROk c d).
Proof.
  intros Hl. unfold perform_or_fail, PerformAction. cbv zeta. rewrite Hl.
  unfold bind, Execute, VmsStartStop, msg_call, bind, DoRequest, ret.
  fold (action_req (av_Method a) vmID).
  destruct (remote tr (action_req (av_Method a) vmID)); simpl.
  - split; [reflexivity|]. split; [discriminate|]. intros (? & ? & ?). discriminate.
  - split; [reflexivity|]. split; eauto.
Qed.

Lemma lookup_start : Action_lookup (ToLower "start") = Some (mkActionVM Status.Started "vms-restart").
Proof. reflexivity. Qed.

Lemma lookup_stop : Action_lookup (ToLower "stop") = Some (mkActionVM Status.Offline "vms-stop").
Proof. reflexivity. Qed.

Lemma stop_with_bootstrap_trace remote vmID known tr c' d' :
  remote tr (get_req vmID) = ROk c' (DVm d') -> CodeAsInt c' = 1 ->
  known = Status.Created \/ vstack_api.oper_status d' <> Status.Started ->
  exists r,
    stop_with_bootstrap remote vmID known tr =
      (tr ++ [get_req vmID; action_req "vms-restart" vmID] ++
       match remote (tr ++ [get_req vmID]) (action_req "vms-restart" vmID) with
       | RErr _ => [] | ROk _ _ => [action_req "vms-stop" vmID] end, r).
Proof.
  intros Hg Hc Hk. unfold stop_with_bootstrap.
  erewrite bind_inr.
  2: { unfold CheckIfVMIsRunning. erewrite bind_inr; [reflexivity|].
       apply VmGet_ok; eassumption. }
  cbv beta. erewrite bind_inr; [|reflexivity]. cbv beta.
  assert (Hcond : (known =? Status.Created) ||
                  negb (vstack_api.oper_status (vr_data (mkVmResult c' (data_vm (DVm d'))))
                          =? Status.Started) = true).
  { simpl. destruct Hk as [->|Hk]; [reflexivity|].
    apply Z.eqb_neq in Hk. rewrite Hk. apply orb_true_r. }
  rewrite Hcond.
  destruct (perform_or_fail_trace remote "Error starting VM before stopping" vmID "start" _
              (tr ++ [get_req vmID]) lookup_start) as [Ht Hs].
  simpl av_Method in Ht, Hs.
  destruct (perform_or_fail remote "Error starting VM before stopping" vmID "start"
              (tr ++ [get_req vmID])) as [tr2 [e|[]]] eqn:Ep; simpl in Ht, Hs; subst tr2.
  - erewrite bind_trace_inl by exact Ep.
    destruct (remote (tr ++ [get_req vmID]) (action_req "vms-restart" vmID)) eqn:Er.
    + eexists. by rewrite <- app_assoc.
    + exfalso. assert (inl e = inr tt) by (apply Hs; eauto). discriminate.
  - erewrite bind_inr by exact Ep.
    destruct (remote (tr ++ [get_req vmID]) (action_req "vms-restart" vmID)) eqn:Er.
    + exfalso. destruct (proj1 Hs eq_refl) as (? & ? & ?). congruence.
    + destruct (perform_or_fail_trace remote "Error stopping VM" vmID "stop" _
                  ((tr ++ [get_req vmID]) ++ [action_req "vms-restart" vmID]) lookup_stop)
        as [Ht' _].
      simpl av_Method in Ht'.
      destruct (perform_or_fail remote "Error stopping VM" vmID "stop" _) as [tr3 r3].
      simpl in Ht'. subst tr3. exists r3. by rewrite <- !app_assoc.
Qed.

Lemma read_back_gets remote vmID onto where_ :
  appends (fun c => method c = "vm-get") (read_back remote vmID onto where_).
Proof. unfold read_back. appends_auto. Qed.

Lemma filter_app_calls (f : Call -> bool) (l1 l2 : list Call) :
  List.filter f (l1 ++ l2) = List.filter f l1 ++ List.filter f l2.
Proof. induction l1 as [|x l1 IH]; simpl; [done|]. destruct (f x); simpl; by rewrite IH. Qed.

Lemma filter_gets (l : list Call) :
  Forall (fun c => method c = "vm-get") l -> List.filter is_action_call l = [].
Proof.
  induction 1 as [|x l Hx _ IH]; simpl; [done|].
  unfold is_action_call at 1. rewrite Hx. exact IH.
Qed.

(** C8. [Create] with action "stop" on a VM whose status right after
    creation is [created], or which the status check then observes as not
    running, issues a [vms-restart] (start) call followed by a [vms-stop]
    call: the start/stop calls it appends are the start and then, unless the
    start call fails at the transport level, the stop; never a stop alone.
    The hypotheses fix the platform's answers: the create call succeeds with
    a non-zero id, and the status check succeeds. *)
Theorem C8_create_stop_starts_first remote plan g c d c' d' tr :
  Guest plan = Some g ->
  ToLower (ValueString (Action plan)) = "stop" ->
  remote tr (create_request (create_plan plan) g) = ROk c (DVm d) ->
  CodeAsInt c = 1 -> vstack_api.id d <> 0 ->
  remote (tr ++ [create_request (create_plan plan) g]) (get_req (vstack_api.id d))
    = ROk c' (DVm d') ->
  CodeAsInt c' = 1 ->
  vstack_api.oper_status d = Status.Created \/ vstack_api.oper_status d' <> Status.Started ->
  exists new, fst (Create remote plan tr) = tr ++ new /\
    List.filter is_action_call new =
      action_req "vms-restart" (vstack_api.id d) ::
      match remote (tr ++ [create_request (create_plan plan) g; get_req (vstack_api.id d)])
                   (action_req "vms-restart" (vstack_api.id d)) with
      | RErr _ => []
      | ROk _ _ => [action_req "vms-stop" (vstack_api.id d)]
      end.
Proof.
  intros Hg Ha Hcr Hc Hid Hget Hc' Hk. unfold Create. cbv zeta.
  change (Guest (create_plan plan)) with (Guest plan). rewrite Hg.
  erewrite bind_inr by (apply VmCreate_ok; eassumption).
  cbv beta. erewrite bind_inr by reflexivity. cbv beta. cbn [vr_data data_vm].
  apply Z.eqb_neq in Hid. rewrite Hid.
  change (Action (create_plan plan)) with (Action plan). rewrite Ha.
  change (String.eqb "stop" "start") with false.
  change (String.eqb "stop" "stop") with true. cbv beta iota.
  destruct (stop_with_bootstrap_trace remote (vstack_api.id d) (vstack_api.oper_status d)
              (tr ++ [create_request (create_plan plan) g]) c' d' Hget Hc' Hk) as [r Hs].
  rewrite <- !app_assoc in Hs. simpl app in Hs.
  set (opt := match remote (tr ++ [create_request (create_plan plan) g; get_req (vstack_api.id d)])
                       (action_req "vms-restart" (vstack_api.id d)) with
              | RErr _ => [] | ROk _ _ => [action_req "vms-stop" (vstack_api.id d)] end) in *.
  assert (Hopt : List.filter is_action_call opt = opt).
  { unfold opt.
    case (remote (tr ++ [create_request (create_plan plan) g; get_req (vstack_api.id d)])
                 (action_req "vms-restart" (vstack_api.id d))); reflexivity. }
  destruct r as [e|[]].
  - erewrite bind_trace_inl by exact Hs.
    exists ([create_request (create_plan plan) g; get_req (vstack_api.id d);
             action_req "vms-restart" (vstack_api.id d)] ++ opt).
    split; [reflexivity|].
    rewrite filter_app_calls, Hopt. reflexivity.
  - erewrite bind_inr by exact Hs.
    destruct (read_back_gets remote (vstack_api.id d) (create_plan plan) "Create"
                (tr ++ create_request (create_plan plan) g :: get_req (vstack_api.id d) ::
                       action_req "vms-restart" (vstack_api.id d) :: opt))
      as [n [Hn Fn]].
    exists ([create_request (create_plan plan) g; get_req (vstack_api.id d);
             action_req "vms-restart" (vstack_api.id d)] ++ opt ++ n).
    split; [rewrite Hn; by rewrite <- !app_assoc|].
    rewrite !filter_app_calls, Hopt, (filter_gets n Fn).
    rewrite app_nil_r. reflexivity.
Qed.

Lemma C8_create_stop_starts_first_witness :
  let rm := echo_remote (sample_vmdata 7 Status.Created) in
  let pl := sample_state Status.Created "stop" [] in
  let vm := sample_vmdata 7 Status.Created in
  let cr := create_request (create_plan pl) sample_guest in
  (Guest pl = Some sample_guest /\ ToLower (ValueString (Action pl)) = "stop" /\
   rm [] cr = ROk code_ok (DVm vm) /\ CodeAsInt code_ok = 1 /\ vstack_api.id vm <> 0 /\
   rm ([] ++ [cr]) (get_req (vstack_api.id vm)) = ROk code_ok (DVm vm) /\
   (vstack_api.oper_status vm = Status.Created \/
    vstack_api.oper_status vm <> Status.Started)) /\
  exists new, fst (Create rm pl []) = [] ++ new /\
    List.filter is_action_call new =
      action_req "vms-restart" (vstack_api.id vm) ::
      match rm ([] ++ [cr; get_req (vstack_api.id vm)])
               (action_req "vms-restart" (vstack_api.id vm)) with
      | RErr _ => []
      | ROk _ _ => [action_req "vms-stop" (vstack_api.id vm)]
      end.
Proof.
  intros rm pl vm cr.
  assert (H : Guest pl = Some sample_guest /\ ToLower (ValueString (Action pl)) = "stop" /\
              rm [] cr = ROk code_ok (DVm vm) /\ CodeAsInt code_ok = 1 /\
              vstack_api.id vm <> 0 /\
              rm ([] ++ [cr]) (get_req (vstack_api.id vm)) = ROk code_ok (DVm vm) /\
              (vstack_api.oper_status vm = Status.Created \/
               vstack_api.oper_status vm <> Status.Started)).
  { split; [reflexivity|]. split; [reflexivity|]. split; [reflexivity|].
    split; [reflexivity|]. split; [discriminate|]. split; [reflexivity|].
    left. reflexivity. }
  split; [exact H|].
  destruct H as (H1 & H2 & H3 & H4 & H5 & H6 & H7).
  exact (C8_create_stop_starts_first rm pl sample_guest code_ok vm code_ok vm []
           H1 H2 H3 H4 H5 H6 H4 H7).
Defined.

Lemma opt_entry_nil k b v : opt_entry k b v = [] <-> b = false.
Proof. destruct b; split; (discriminate || reflexivity). Qed.

(** The [vm-set] parameters of [Update] are empty exactly when the eleven
    compared fields agree between plan and state as Terraform values read
    with [ValueString]/[ValueInt64] (a null equals "" or 0). *)
Lemma update_vm_params_empty_iff plan state :
  update_vm_params plan state = [] <->
  ValueString (Name plan) = ValueString (Name state) /\
  ValueString (Description plan) = ValueString (Description state) /\
  ValueInt64 (CPUs plan) = ValueInt64 (CPUs state) /\
  ValueInt64 (RAM plan) = ValueInt64 (RAM state) /\
  ValueInt64 (CPUPriority plan) = ValueInt64 (CPUPriority state) /\
  ValueInt64 (BootMedia plan) = ValueInt64 (BootMedia state) /\
  ValueInt64 (VcpuClass plan) = ValueInt64 (VcpuClass state) /\
  ValueInt64 (OsType plan) = ValueInt64 (OsType state) /\
  ValueString (OsProfile plan) = ValueString (OsProfile state) /\
  ValueInt64 (VdcID plan) = ValueInt64 (VdcID state) /\
  ValueString (PoolSelector plan) = ValueString (PoolSelector state).
Proof.
  unfold update_vm_params. cbv beta zeta.
  rewrite !app_nil, !opt_entry_nil, !negb_false_iff, !String.eqb_eq, !Z.eqb_eq.
  reflexivity.
Qed.

Lemma Forall_filter_nil (f : Call -> bool) (l : list Call) :
  Forall (fun c => f c = false) l -> List.filter f l = [].
Proof. induction 1 as [|x l Hx _ IH]; simpl; [done|]. by rewrite Hx. Qed.











(** * Further properties of the code *)

(** ** Action names *)

Lemma lower_ascii_idem c : lower_ascii (lower_ascii c) = lower_ascii c.
Proof. destruct c as [[] [] [] [] [] [] [] []]; reflexivity. Qed.

Lemma ToLower_idem s : ToLower (ToLower s) = ToLower s.
Proof. induction s as [|c s IH]; simpl; [done|]. by rewrite lower_ascii_idem, IH. Qed.

(** [PerformAction] is case-insensitive in the action name: lowering the
    name first changes neither the calls it makes nor its result. *)
Theorem PerformAction_case_insensitive remote vmID name :
  PerformAction remote vmID (ToLower name) = PerformAction remote vmID name.
Proof. unfold PerformAction. by rewrite ToLower_idem. Qed.

(** [PerformAction] with an ASCII name that is neither "start" nor "stop"
    after lowering makes no call and returns the error "unsupported action: "
    followed by the lowered name. *)
Theorem PerformAction_unsupported_no_call remote vmID name tr :
  is_ascii name = true ->
  ToLower name <> "start" -> ToLower name <> "stop" ->
  PerformAction remote vmID name tr =
    (tr, inr (Some ("unsupported action: " +:+ ToLower name))).
Proof.
  intros _ H1 H2. unfold PerformAction, Action_lookup. cbv zeta.
  apply String.eqb_neq in H1. apply String.eqb_neq in H2. rewrite H1, H2. reflexivity.
Qed.

Lemma PerformAction_unsupported_no_call_witness :
  (is_ascii "Reboot" = true /\ ToLower "Reboot" <> "start" /\ ToLower "Reboot" <> "stop") /\
  PerformAction (echo_remote (sample_vmdata 7 Status.Started)) 7 "Reboot" [] =
    ([], inr (Some ("unsupported action: " +:+ ToLower "Reboot"))).
Proof.
  assert (H : is_ascii "Reboot" = true /\
              ToLower "Reboot" <> "start" /\ ToLower "Reboot" <> "stop").
  { split; [reflexivity|]. split; intros Heq; vm_compute in Heq; discriminate Heq. }
  split; [exact H|]. destruct H as (H0 & H1 & H2).
  exact (PerformAction_unsupported_no_call _ 7 "Reboot" [] H0 H1 H2).
Defined.

(** [PerformAction] with "start" or "stop" (in any letter case) makes
    exactly one call, [vms-restart] or [vms-stop] with the VM id, and fails
    only when that call fails at the transport or API level, with the error
    wrapped by [VmsStartStop], [Execute] and [PerformAction]; a response
    with any code counts as success. *)
Theorem PerformAction_one_call remote vmID name m tr :
  (ToLower name = "start" /\ m = "vms-restart") \/ (ToLower name = "stop" /\ m = "vms-stop") ->
  PerformAction remote vmID name tr =
    (tr ++ [action_req m vmID],
     inr (match remote tr (action_req m vmID) with
          | RErr e => Some ("failed to perform action '" +:+ ToLower name +:+
                            "' on VM: SetNicRatelimit: error executing action '" +:+ m +:+
                            "' for VM ID " +:+ pretty vmID +:+ ": VmsStartStop: " +:+ e)
          | ROk _ _ => None
          end)).
Proof.
  intros Hn. unfold PerformAction. cbv zeta.
  destruct Hn as [[Hn ->]|[Hn ->]]; rewrite Hn; cbn [Action_lookup String.eqb Ascii.eqb Bool.eqb];
  unfold Execute, VmsStartStop, msg_call, bind, DoRequest, ret, action_req; cbn [av_Method];
  destruct (remote tr _); reflexivity.
Qed.

Lemma PerformAction_one_call_witness :
  ((ToLower "STOP" = "start" /\ "vms-stop" = "vms-restart") \/
   (ToLower "STOP" = "stop" /\ "vms-stop" = "vms-stop")) /\
  PerformAction (echo_remote (sample_vmdata 7 Status.Started)) 7 "STOP" [] =
    ([] ++ [action_req "vms-stop" 7],
     inr (match echo_remote (sample_vmdata 7 Status.Started) [] (action_req "vms-stop" 7) with
          | RErr e => Some ("failed to perform action '" +:+ ToLower "STOP" +:+
                            "' on VM: SetNicRatelimit: error executing action '" +:+ "vms-stop" +:+
                            "' for VM ID " +:+ pretty 7 +:+ ": VmsStartStop: " +:+ e)
          | ROk _ _ => None
          end)).
Proof.
  assert (H : (ToLower "STOP" = "start" /\ "vms-stop" = "vms-restart") \/
              (ToLower "STOP" = "stop" /\ "vms-stop" = "vms-stop")) by (right; split; reflexivity).
  split; [exact H|]. apply PerformAction_one_call; exact H.
Defined.

(** ** The status check *)

(** [CheckIfVMIsRunning] makes exactly one [vm-get] call; it reports the VM
    as running exactly when the call succeeds with code 1 and the operational
    status is [Started], and fails (with "failed to get VM status: ") when
    the call fails or its code is not 1. *)
Theorem CheckIfVMIsRunning_result remote vmID tr :
  CheckIfVMIsRunning remote vmID tr =
    (tr ++ [get_req vmID],
     inr (match remote tr (get_req vmID) with
          | RErr e => inl ("failed to get VM status: VmGet: " +:+ e)
          | ROk c d =>
              if CodeAsInt c =? 1
              then inr (vstack_api.oper_status (data_vm d) =? Status.Started)
              else inl ("failed to get VM status: VmGet returned code=" +:+ CodeAsString c)
          end)).
Proof.
  unfold CheckIfVMIsRunning, VmGet, bind, DoRequest, ret, get_req.
  destruct (remote tr _) as [e|c d]; [reflexivity|].
  destruct (CodeAsInt c =? 1); reflexivity.
Qed.

(** ** [Read], [Delete] and the data source *)

(** [Read], [Delete] and [Update] reject a VM whose id is null or zero
    with "Invalid VM ID", before making any call. *)
Theorem zero_id_rejected_without_call remote st other tr :
  ValueInt64 (ID st) = 0 ->
  Read remote st tr = (tr, inl (mkDiag "Invalid VM ID" "VM ID is null or zero.")) /\
  Delete remote st tr = (tr, inl (mkDiag "Invalid VM ID" "VM ID is null or zero.")) /\
  Update remote st other tr = (tr, inl (mkDiag "Invalid VM ID" "VM ID is null or zero.")).
Proof.
  intros H. unfold Read, Delete, Update. cbv zeta. rewrite H.
  split; [reflexivity|]. split; reflexivity.
Qed.

Lemma zero_id_rejected_without_call_witness :
  ValueInt64 (ID null_state) = 0 /\
  Read (echo_remote (sample_vmdata 7 Status.Started)) null_state [] =
    ([], inl (mkDiag "Invalid VM ID" "VM ID is null or zero.")) /\
  Delete (echo_remote (sample_vmdata 7 Status.Started)) null_state [] =
    ([], inl (mkDiag "Invalid VM ID" "VM ID is null or zero.")) /\
  Update (echo_remote (sample_vmdata 7 Status.Started)) null_state null_state [] =
    ([], inl (mkDiag "Invalid VM ID" "VM ID is null or zero.")).
Proof.
  assert (H : ValueInt64 (ID null_state) = 0) by reflexivity.
  split; [exact H|]. apply zero_id_rejected_without_call; exact H.
Defined.




(** The calls of [Delete] on a VM with a non-zero id: a [vm-get] status
    check; if it succeeds with code 1 and the VM is [Started], a [vms-stop];
    then, unless the check or the stop failed, one [vms-remove] carrying the
    VM id and the [vdc_id] of the state.  A VM that is not running is
    removed without a stop, and nothing is removed after a failed check or
    stop. *)
Theorem Delete_calls remote st tr :
  ValueInt64 (ID st) <> 0 ->
  fst (Delete remote st tr) =
    tr ++ get_req (ValueInt64 (ID st)) ::
    match remote tr (get_req (ValueInt64 (ID st))) with
    | RErr _ => []
    | ROk c d =>
        if CodeAsInt c =? 1 then
          if vstack_api.oper_status (data_vm d) =? Status.Started then
            action_req "vms-stop" (ValueInt64 (ID st)) ::
            match remote (tr ++ [get_req (ValueInt64 (ID st))])
                         (action_req "vms-stop" (ValueInt64 (ID st))) with
            | RErr _ => []
            | ROk _ _ => [remove_req (ValueInt64 (ID st)) (ValueInt64 (VdcID st))]
            end
          else [remove_req (ValueInt64 (ID st)) (ValueInt64 (VdcID st))]
        else []
    end.
Proof.
  intros H. apply Z.eqb_neq in H. unfold Delete. cbv zeta. rewrite H.
  unfold CheckIfVMIsRunning, VmGet, perform_or_fail, PerformAction, Execute, VmsStartStop,
    msg_call, VmRemove, bind, DoRequest, ret, or_fail, fail, get_req, action_req, remove_req.
  change (ToLower "stop") with "stop". cbn [Action_lookup String.eqb Ascii.eqb Bool.eqb av_Method].
  destruct (remote tr _) as [e|c d]; [reflexivity|].
  destruct (CodeAsInt c =? 1); [|reflexivity]. cbn [vr_data fst snd].
  destruct (vstack_api.oper_status (data_vm d) =? Status.Started); cbn;
  repeat match goal with
  | |- context [match remote ?a ?b with _ => _ end] => destruct (remote a b); cbn
  | |- context [if CodeAsInt ?c =? 1 then _ else _] => destruct (CodeAsInt c =? 1); cbn
  end; rewrite <- ?app_assoc; reflexivity.
Qed.

Lemma Delete_calls_witness :
  let st := sample_state Status.Started "start" [] in
  let rm := echo_remote (sample_vmdata 7 Status.Started) in
  ValueInt64 (ID st) <> 0 /\
  fst (Delete rm st []) =
    [] ++ get_req (ValueInt64 (ID st)) ::
    match rm [] (get_req (ValueInt64 (ID st))) with
    | RErr _ => []
    | ROk c d =>
        if CodeAsInt c =? 1 then
          if vstack_api.oper_status (data_vm d) =? Status.Started then
            action_req "vms-stop" (ValueInt64 (ID st)) ::
            match rm ([] ++ [get_req (ValueInt64 (ID st))])
                     (action_req "vms-stop" (ValueInt64 (ID st))) with
            | RErr _ => []
            | ROk _ _ => [remove_req (ValueInt64 (ID st)) (ValueInt64 (VdcID st))]
            end
          else [remove_req (ValueInt64 (ID st)) (ValueInt64 (VdcID st))]
        else []
    end.
Proof.
  intros st rm.
  assert (H : ValueInt64 (ID st) <> 0) by discriminate.
  split; [exact H|]. apply Delete_calls; exact H.
Defined.

(** ** Decimal round trip ([strconv.ParseInt] against [fmt]'s [%d]) *)

Lemma digit_val_pretty_N_char (x : N) :
  (x < 10)%N -> digit_val (pretty_N_char x) = Some (Z.of_N x).
Proof.
  intros H.
  assert (x = 0 \/ x = 1 \/ x = 2 \/ x = 3 \/ x = 4 \/ x = 5 \/ x = 6 \/ x = 7 \/
          x = 8 \/ x = 9)%N as Hx by lia.
  repeat (destruct Hx as [->|Hx]; [reflexivity|]). subst. reflexivity.
Qed.

Lemma parse_digits_pretty_N_go (x : N) : forall s acc, exists k, 0 <= k /\
  parse_digits (pretty_N_go x s) acc = parse_digits s (acc * 10 ^ k + Z.of_N x).
Proof.
  induction (N.lt_wf_0 x) as [x _ IH]; intros s acc.
  destruct (N.eq_dec x 0%N) as [->|Hx].
  - exists 0. rewrite pretty_N_go_0. split; [lia|]. f_equal. lia.
  - rewrite pretty_N_go_step by lia.
    destruct (IH (x `div` 10)%N ltac:(apply N.div_lt; lia)
                (String (pretty_N_char (x `mod` 10)) s) acc) as [k [Hk E]].
    rewrite E. cbn [parse_digits].
    rewrite digit_val_pretty_N_char by (apply N.mod_lt; lia).
    exists (k + 1). split; [lia|]. f_equal.
    rewrite Z.pow_add_r by lia.
    rewrite N2Z.inj_div, N2Z.inj_mod.
    assert (D := Z.div_mod (Z.of_N x) 10 ltac:(lia)).
    change (Z.of_N 10) with 10. lia.
Qed.

Lemma parse_digits_pretty_N (x : N) :
  parse_digits (pretty_N_go x "") 0 = Some (Z.of_N x).
Proof.
  destruct (parse_digits_pretty_N_go x "" 0) as [k [_ E]]. rewrite E. reflexivity.
Qed.

(** A string that is empty or starts with a decimal digit. *)
Definition digit_headed (s : string) : Prop :=
  match s with EmptyString => True | String c _ => digit_val c <> None end.

Lemma pretty_N_go_head (x : N) : forall s, ((0 < x)%N \/ s <> "") -> digit_headed s ->
  exists c r, pretty_N_go x s = String c r /\ digit_val c <> None.
Proof.
  induction (N.lt_wf_0 x) as [x _ IH]; intros s Hs Hd.
  destruct (N.eq_dec x 0%N) as [->|Hx].
  - rewrite pretty_N_go_0. destruct Hs as [Hs|Hs]; [lia|].
    destruct s as [|c r]; [congruence|]. eauto.
  - rewrite pretty_N_go_step by lia.
    apply (IH (x `div` 10)%N ltac:(apply N.div_lt; lia)); [right; discriminate|].
    simpl. rewrite digit_val_pretty_N_char by (apply N.mod_lt; lia). discriminate.
Qed.

Lemma ParseInt10_digit_head c r :
  digit_val c <> None ->
  ParseInt10 (String c r) =
    match parse_digits (String c r) 0 with
    | None => None
    | Some v => if (int64_min <=? v) && (v <=? int64_max) then Some v else None
    end.
Proof.
  intros H. destruct c as [[] [] [] [] [] [] [] []]; try reflexivity;
  exfalso; apply H; reflexivity.
Qed.

Lemma ParseInt10_pretty (n : Z) :
  ParseInt10 (pretty n) =
    if (int64_min <=? n) && (n <=? int64_max) then Some n else None.
Proof.
  destruct n as [|p|p]; [reflexivity| |].
  - change (pretty (Z.pos p)) with (pretty_N_go (N.pos p) "").
    destruct (pretty_N_go_head (N.pos p) "" (or_introl eq_refl) I) as (c & r & E & Hc).
    rewrite E, ParseInt10_digit_head by exact Hc. rewrite <- E, parse_digits_pretty_N.
    reflexivity.
  - change (pretty (Z.neg p)) with (String "-" (pretty_N_go (N.pos p) "")).
    destruct (pretty_N_go_head (N.pos p) "" (or_introl eq_refl) I) as (c & r & E & Hc).
    unfold ParseInt10. rewrite E. cbv beta iota. rewrite <- E, parse_digits_pretty_N.
    reflexivity.
Qed.

(** [ImportState] accepts the decimal form of every int64 and sets the
    [id] to that number; the decimal form of a number outside the int64
    range is refused with "Invalid Import ID". *)
Theorem ImportState_decimal (n : Z) :
  ImportState (pretty n) =
    if (int64_min <=? n) && (n <=? int64_max) then inr n
    else inl (mkDiag "Invalid Import ID" ("Expected an integer VM ID, got: " +:+ pretty n)).
Proof.
  unfold ImportState. rewrite ParseInt10_pretty.
  destruct ((int64_min <=? n) && (n <=? int64_max)); reflexivity.
Qed.

(** A response code sent as the JSON string of an int64 decodes to the
    same number as the code sent as that JSON number: [CodeAsInt] inverts
    [CodeAsString] on int64 values.  A decimal string outside the int64
    range decodes to 0. *)
Theorem CodeAsInt_string_code (n : Z) :
  CodeAsInt (mkCodeUnion None (Some (CodeAsString (mkCodeUnion (Some n) None)))) =
    if (int64_min <=? n) && (n <=? int64_max) then n else 0.
Proof.
  unfold CodeAsInt, CodeAsString. cbn [AsInt AsString]. rewrite ParseInt10_pretty.
  destruct ((int64_min <=? n) && (n <=? int64_max)); reflexivity.
Qed.

(** ** Overflow of the conversions *)

Lemma wrap64_mul (x k : Z) : wrap64 (wrap64 x * k) = wrap64 (x * k).
Proof.
  unfold wrap64.
  assert (Hm : 2 ^ 64 <> 0) by lia.
  rewrite (Z.mod_eq (x + 2 ^ 63)) by exact Hm.
  replace ((x + 2 ^ 63 - 2 ^ 64 * ((x + 2 ^ 63) / 2 ^ 64) - 2 ^ 63) * k + 2 ^ 63)
    with ((x * k + 2 ^ 63) + (- (k * ((x + 2 ^ 63) / 2 ^ 64))) * 2 ^ 64) by ring.
  rewrite Z.mod_add by exact Hm. reflexivity.
Qed.

(** The unit conversions to bytes are int64 multiplications: converting
    [g] GB gives [g * 2^30] and [m] MB gives [m * 2^20], both wrapped to
    the int64 range in two's complement, so a size too large for int64
    silently wraps (to a negative or smaller value) instead of failing. *)
Theorem ConvertToBytes_wraps (g m : Z) :
  ConvertGbToBytes g = wrap64 (g * 2 ^ 30) /\ ConvertMbToBytes m = wrap64 (m * 2 ^ 20).
Proof.
  unfold ConvertGbToBytes, ConvertMbToBytes.
  repeat (rewrite wrap64_mul || rewrite <- (Z.mul_assoc (wrap64 _))).
  split; f_equal; lia.
Qed.

(** ** The sector-size default fill and the create request *)

(** [ApplyDefaultSectorSize] changes only the [sector_size] of a disk: a
    null [sector_size] becomes 512/512; a known one keeps its non-null
    attributes (an unknown attribute stays unknown) and gets 512 for a null
    one; an unknown one stays unknown (the attribute map of an unknown object
    is empty, so [types.ObjectValue] fails and yields an unknown object).
    Applying it twice is the same as applying it once. *)
Theorem ApplyDefaultSectorSize_fills d :
  ApplyDefaultSectorSize (ApplyDefaultSectorSize d) = ApplyDefaultSectorSize d /\
  (SectorSize d = TNull ->
     ApplyDefaultSectorSize d =
       set_SectorSize d (TKnown (mkSectorSizeModel (TKnown 512) (TKnown 512)))) /\
  (SectorSize d = TUnknown -> ApplyDefaultSectorSize d = d) /\
  (forall ss, SectorSize d = TKnown ss ->
     exists l p,
       ApplyDefaultSectorSize d = set_SectorSize d (TKnown (mkSectorSizeModel l p)) /\
       ((Logical ss = TNull /\ l = TKnown 512) \/ (Logical ss <> TNull /\ l = Logical ss)) /\
       ((Physical ss = TNull /\ p = TKnown 512) \/ (Physical ss <> TNull /\ p = Physical ss))).
Proof.
  destruct d as [g sl sz io mb lb [| |[l p]]].
  - split; [reflexivity|]. split; [reflexivity|]. split; [discriminate|]. intros ? [=].
  - split; [reflexivity|]. split; [discriminate|]. split; [reflexivity|]. intros ? [=].
  - destruct l, p; (split; [reflexivity|]); (split; [discriminate|]);
      (split; [discriminate|]); intros ss [= <-]; eexists _, _;
      (split; [reflexivity|]);
      split; first [ left; split; reflexivity | right; split; [discriminate|reflexivity] ].
Qed.

Lemma FormatDisks_default ds : FormatDisks (map ApplyDefaultSectorSize ds) = FormatDisks ds.
Proof.
  unfold FormatDisks. rewrite map_map. f_equal. apply map_ext. intros d.
  rewrite ApplyDefaultSectorSize_set. by destruct d.
Qed.

(** The default sector-size fill of [Create] does not reach the
    [vms-create] request: [FormatDisks] sends only size, slot, limits and
    label of each disk, so the request is the same as for the plan before
    the fill. *)
Theorem create_request_ignores_sector_fill plan g :
  create_request (create_plan plan) g = create_request plan g.
Proof.
  destruct plan. unfold create_request, create_params, create_plan, set_Disks.
  cbn [Name Description CPUs RAM CPUPriority BootMedia VcpuClass OsType OsProfile VdcID
       PoolSelector Disks].
  by rewrite FormatDisks_default.
Qed.

(** ** Mapping the disks of a response *)

Lemma validate_disk_None i d :
  validate_disk i d = None <->
  0 <= vstack_api.size d /\ 0 <= vstack_api.slot d /\
  (forall v, vstack_api.iops_limit d = Some v -> 0 <= v) /\
  (forall v, vstack_api.mbps_limit d = Some v -> 0 <= v).
Proof.
  destruct d as [guid size slot [iops|] [mbps|] label ss];
  unfold validate_disk, validateInt64; cbn;
  repeat match goal with |- context [?a <? 0] => destruct (Z.ltb_spec a 0) end; cbn;
  (split;
   [ intros Hn; try discriminate Hn; repeat split; try lia; intros ? Hv; inversion Hv; subst; lia
   | intros (Ha & Hb & Hc & Hd); try reflexivity; exfalso;
     try specialize (Hc _ eq_refl); try specialize (Hd _ eq_refl); lia ]).
Qed.

Lemma map_disks_from_ok i ds :
  (forall ms, map_disks_from i ds = inr ms -> ms = map map_one_disk ds) /\
  ((exists ms, map_disks_from i ds = inr ms) <->
   Forall (fun d => 0 <= vstack_api.size d /\ 0 <= vstack_api.slot d /\
                    (forall v, vstack_api.iops_limit d = Some v -> 0 <= v) /\
                    (forall v, vstack_api.mbps_limit d = Some v -> 0 <= v)) ds).
Proof.
  revert i. induction ds as [|d ds IH]; intros i; simpl.
  - split; [by intros ms [= <-]|]. split; eauto.
  - destruct (IH (S i)) as [IH1 IH2].
    destruct (validate_disk i d) as [e|] eqn:Ev.
    + split; [discriminate|]. split; [intros [? ?]; discriminate|].
      intros F. inversion F as [|? ? Hd _]; subst.
      apply (validate_disk_None i) in Hd. congruence.
    + apply validate_disk_None in Ev.
      destruct (map_disks_from (S i) ds) as [e|ms] eqn:Er.
      * split; [discriminate|]. split; [intros [? ?]; discriminate|].
        intros F. inversion F; subst. destruct (proj2 IH2 ltac:(assumption)). discriminate.
      * split; [intros ? [= <-]; by rewrite (IH1 ms eq_refl)|].
        split; [intros _; constructor; [exact Ev|]; apply IH2; eauto | eauto].
Qed.

(** [MapDisksToModel] succeeds exactly when every disk of the response has
    a non-negative size and slot, and non-negative rate limits where they
    are set; the disks it then returns are the response's disks mapped one
    by one, in order ([map_one_disk]: size from bytes to GB, the other
    attributes copied). *)
Theorem MapDisksToModel_ok ds :
  (forall ms, MapDisksToModel ds = inr ms -> ms = map map_one_disk ds) /\
  ((exists ms, MapDisksToModel ds = inr ms) <->
   Forall (fun d => 0 <= vstack_api.size d /\ 0 <= vstack_api.slot d /\
                    (forall v, vstack_api.iops_limit d = Some v -> 0 <= v) /\
                    (forall v, vstack_api.mbps_limit d = Some v -> 0 <= v)) ds).
Proof. apply map_disks_from_ok. Qed.

Lemma map_disks_from_first_error ds : forall i j d e,
  nth_error ds j = Some d -> validate_disk (i + j) d = Some e ->
  (forall j' d', (j' < j)%nat -> nth_error ds j' = Some d' ->
     validate_disk (i + j') d' = None) ->
  map_disks_from i ds = inl e.
Proof.
  induction ds as [|d0 ds IH]; intros i j d e Hj Hv Hprev; [by destruct j|].
  destruct j as [|j]; simpl in Hj.
  - injection Hj as <-. rewrite Nat.add_0_r in Hv. simpl. by rewrite Hv.
  - assert (H0 : validate_disk i d0 = None).
    { rewrite <- (Nat.add_0_r i). apply (Hprev 0%nat d0); [lia|reflexivity]. }
    simpl. rewrite H0.
    rewrite (IH (S i) j d e Hj); [reflexivity| |].
    + by replace (S i + j)%nat with (i + S j)%nat by lia.
    + intros j' d' Hlt Hn. replace (S i + j')%nat with (i + S j')%nat by lia.
      apply (Hprev (S j')); [lia|exact Hn].
Qed.

(** When the disk at index [j] is the first that fails validation,
    [MapDisksToModel] fails with that disk's error, whose message names the
    field and the index [j] ("Disk[j].Size", ...). *)
Theorem MapDisksToModel_first_error ds j d e :
  nth_error ds j = Some d -> validate_disk j d = Some e ->
  (forall j' d', (j' < j)%nat -> nth_error ds j' = Some d' -> validate_disk j' d' = None) ->
  MapDisksToModel ds = inl e.
Proof.
  intros Hj Hv Hprev. apply (map_disks_from_first_error ds 0 j d e); auto.
Qed.

Lemma MapDisksToModel_first_error_witness :
  let ok := vstack_api.mkDisk "g0" (2 ^ 30) 0 None None "" None in
  let bad := vstack_api.mkDisk "g1" 0 1 (Some (-5)) None "" None in
  (nth_error [ok; bad] 1 = Some bad /\
   validate_disk 1 bad = Some "invalid value for field Disk[1].IOPSLimit, must be non-negative" /\
   (forall j' d', (j' < 1)%nat -> nth_error [ok; bad] j' = Some d' -> validate_disk j' d' = None)) /\
  MapDisksToModel [ok; bad] = inl "invalid value for field Disk[1].IOPSLimit, must be non-negative".
Proof.
  intros ok bad.
  assert (H : nth_error [ok; bad] 1 = Some bad /\
              validate_disk 1 bad = Some "invalid value for field Disk[1].IOPSLimit, must be non-negative" /\
              (forall j' d', (j' < 1)%nat -> nth_error [ok; bad] j' = Some d' ->
                             validate_disk j' d' = None)).
  { split; [reflexivity|]. split; [vm_compute; reflexivity|].
    intros [|j'] d' Hlt Hn; [|lia]. injection Hn as <-. vm_compute. reflexivity. }
  split; [exact H|]. destruct H as (H1 & H2 & H3).
  exact (MapDisksToModel_first_error [ok; bad] 1 bad _ H1 H2 H3).
Defined.

(** ** The parameters [Update] sends with [vm-set] *)

Lemma perform_or_fail_appends P remote summary vmID name :
  P (action_req "vms-restart" vmID) -> P (action_req "vms-stop" vmID) ->
  appends P (perform_or_fail remote summary vmID name).
Proof.
  unfold action_req. intros H1 H2. unfold perform_or_fail, PerformAction, Action_lookup.
  cbv zeta. apply appends_bind; [|intros [?|]; appends_auto].
  destruct (String.eqb (ToLower name) "start"); [|destruct (String.eqb (ToLower name) "stop")];
    cbv iota; unfold Execute, VmsStartStop; cbn [av_Method]; appends_auto;
    by apply appends_DoRequest.
Qed.

Lemma stop_with_bootstrap_appends P remote vmID known :
  P (get_req vmID) -> P (action_req "vms-restart" vmID) -> P (action_req "vms-stop" vmID) ->
  appends P (stop_with_bootstrap remote vmID known).
Proof.
  intros Hg H1 H2. unfold stop_with_bootstrap, CheckIfVMIsRunning.
  apply appends_bind.
  { apply appends_bind; [apply appends_VmGet; exact Hg | intros; apply appends_ret]. }
  intros r. apply appends_bind; [apply appends_or_fail|]. intros b.
  apply appends_bind.
  { destruct (_ || _); [by apply perform_or_fail_appends | apply appends_ret]. }
  intros _. by apply perform_or_fail_appends.
Qed.

(** [Update]'s step 2, once its disk step has succeeded.  When the eleven
    fields it compares agree between plan and state (read with
    [ValueString]/[ValueInt64], so a null equals "" or 0), [Update] issues
    no [vm-set] call at all.  Otherwise its first call after the disk calls
    is the one [vm-set] of the VM id carrying [update_vm_params] (exactly the
    changed fields), and no other [vm-set] follows. *)
Theorem Update_vm_set_once remote plan state tr tr1 :
  ValueInt64 (ID plan) <> 0 ->
  UpdateDisks remote plan state tr = (tr1, inr tt) ->
  let agree :=
    ValueString (Name plan) = ValueString (Name state) /\
    ValueString (Description plan) = ValueString (Description state) /\
    ValueInt64 (CPUs plan) = ValueInt64 (CPUs state) /\
    ValueInt64 (RAM plan) = ValueInt64 (RAM state) /\
    ValueInt64 (CPUPriority plan) = ValueInt64 (CPUPriority state) /\
    ValueInt64 (BootMedia plan) = ValueInt64 (BootMedia state) /\
    ValueInt64 (VcpuClass plan) = ValueInt64 (VcpuClass state) /\
    ValueInt64 (OsType plan) = ValueInt64 (OsType state) /\
    ValueString (OsProfile plan) = ValueString (OsProfile state) /\
    ValueInt64 (VdcID plan) = ValueInt64 (VdcID state) /\
    ValueString (PoolSelector plan) = ValueString (PoolSelector state) in
  exists new, fst (Update remote plan state tr) = tr1 ++ new /\
    (agree -> List.filter is_vm_set new = []) /\
    (~ agree ->
       exists rest,
         new = vm_set_req (ValueInt64 (ID plan)) (update_vm_params plan state) :: rest /\
         List.filter is_vm_set rest = []).
Proof.
  intros Hid HU agree.
  unfold Update. cbv zeta. apply Z.eqb_neq in Hid. rewrite Hid. cbv iota.
  erewrite bind_inr by exact HU. cbv beta.
  match goal with |- context [bind _ ?k tr1] =>
    assert (Hk : forall u, appends (fun c => is_vm_set c = false) (k u)) end.
  { intros u. cbv beta. apply appends_bind.
    - repeat match goal with |- appends _ (if ?b then _ else _) => destruct b end;
        first [ apply appends_ret | apply appends_fail
              | apply perform_or_fail_appends; reflexivity
              | apply stop_with_bootstrap_appends; reflexivity ].
    - intros. eapply appends_mono; [|apply read_back_gets].
      intros c Hc. unfold is_vm_set. by rewrite Hc. }
  destruct (update_vm_params plan state) as [|p ps] eqn:E.
  - destruct (appends_bind _ (ret tt) _ (appends_ret _ tt) Hk tr1) as [new [Hn Fn]].
    exists new. split; [exact Hn|]. split; [intros _; by apply Forall_filter_nil|].
    intros Hna. exfalso. apply Hna. by apply update_vm_params_empty_iff.
  - assert (Hx : appends_exactly [vm_set_req (ValueInt64 (ID plan)) (p :: ps)]
                   (r <- VmSet remote (vm_set_req (ValueInt64 (ID plan)) (p :: ps)) ;;
                    u <- or_fail "Error updating VM parameters" r ;; ret tt)).
    { apply exactly_bind; [intros tr'; reflexivity|]. intros. appends_auto. }
    destruct (exactly_then _ _ _ _ Hx Hk tr1) as [rest [Hr Fr]].
    exists (vm_set_req (ValueInt64 (ID plan)) (p :: ps) :: rest). split; [exact Hr|].
    split.
    + intros Ha. apply update_vm_params_empty_iff in Ha. congruence.
    + intros _. exists rest. split; [reflexivity|]. by apply Forall_filter_nil.
Qed.

Lemma Update_vm_set_once_witness :
  let st := sample_state Status.Started "" [] in
  let pl := mkVM (Some 7) (Some "web") None None None None None None None None None None
                 None None None None None None None None (Some Status.Started) (Some "")
                 (Some sample_guest) [] in
  let rm := echo_remote (sample_vmdata 7 Status.Started) in
  (ValueInt64 (ID pl) <> 0 /\ UpdateDisks rm pl st [] = ([], inr tt)) /\
  let agree :=
    ValueString (Name pl) = ValueString (Name st) /\
    ValueString (Description pl) = ValueString (Description st) /\
    ValueInt64 (CPUs pl) = ValueInt64 (CPUs st) /\
    ValueInt64 (RAM pl) = ValueInt64 (RAM st) /\
    ValueInt64 (CPUPriority pl) = ValueInt64 (CPUPriority st) /\
    ValueInt64 (BootMedia pl) = ValueInt64 (BootMedia st) /\
    ValueInt64 (VcpuClass pl) = ValueInt64 (VcpuClass st) /\
    ValueInt64 (OsType pl) = ValueInt64 (OsType st) /\
    ValueString (OsProfile pl) = ValueString (OsProfile st) /\
    ValueInt64 (VdcID pl) = ValueInt64 (VdcID st) /\
    ValueString (PoolSelector pl) = ValueString (PoolSelector st) in
  exists new, fst (Update rm pl st []) = [] ++ new /\
    (agree -> List.filter is_vm_set new = []) /\
    (~ agree ->
       exists rest,
         new = vm_set_req (ValueInt64 (ID pl)) (update_vm_params pl st) :: rest /\
         List.filter is_vm_set rest = []).
Proof.
  intros st pl rm.
  assert (H : ValueInt64 (ID pl) <> 0 /\ UpdateDisks rm pl st [] = ([], inr tt)).
  { split; [discriminate | vm_compute; reflexivity]. }
  split; [exact H|]. destruct H as (H1 & H2).
  exact (Update_vm_set_once rm pl st [] [] H1 H2).
Defined.

(** ** The mapping of a describe response *)

Lemma validateInt64_None v f : validateInt64 v f = None <-> 0 <= v.
Proof. unfold validateInt64. destruct (Z.ltb_spec v 0); split; (discriminate || lia || done). Qed.

(** When [MapRespToState] reports no error, every validated field of the
    response is non-negative, and the returned state carries the response's
    id and operational status, its RAM converted from bytes to MB, its disks
    mapped one by one, and the action derived from the operational status. *)
Theorem MapRespToState_success d st :
  snd (MapRespToState d st) = None ->
  (0 <= vstack_api.id d /\ 0 <= vstack_api.cpus d /\ 0 <= vstack_api.ram d /\
   0 <= vstack_api.cpu_priority d /\ 0 <= vstack_api.boot_media_id d /\
   0 <= vstack_api.vcpu_class d /\ 0 <= vstack_api.os_type d /\ 0 <= vstack_api.vdc d /\
   0 <= vstack_api.admin_status d /\ 0 <= vstack_api.node d /\
   0 <= vstack_api.create_completed d /\ 0 <= vstack_api.locked d /\
   0 <= vstack_api.status d /\ 0 <= vstack_api.oper_status d) /\
  ID (fst (MapRespToState d st)) = Some (vstack_api.id d) /\
  OperStatus (fst (MapRespToState d st)) = Some (vstack_api.oper_status d) /\
  RAM (fst (MapRespToState d st)) = Some (vstack_api.ram d / 2 ^ 20) /\
  Disks (fst (MapRespToState d st)) = map map_one_disk (vstack_api.disks d) /\
  Action (fst (MapRespToState d st)) = Some (getActionFromStatus (vstack_api.oper_status d)).
Proof.
  unfold MapRespToState. cbv zeta.
  destruct (first_error _) as [e|] eqn:Ef; [discriminate|].
  destruct (MapDisksToModel (vstack_api.disks d)) as [e|ds] eqn:Ed; [discriminate|].
  intros _. cbn [fst ID OperStatus RAM Disks Action].
  unfold first_error, foldr in Ef.
  repeat match type of Ef with
  | context [validateInt64 ?v ?f] =>
      let H := fresh "Hv" in
      destruct (validateInt64 v f) eqn:H; [discriminate Ef|]; apply validateInt64_None in H
  end.
  rewrite ConvertBytesToMb_nonneg by assumption.
  rewrite ((proj1 (map_disks_from_ok 0 (vstack_api.disks d))) ds Ed).
  repeat split; assumption.
Qed.

Lemma MapRespToState_success_witness :
  snd (MapRespToState (sample_vmdata 7 Status.Started) null_state) = None /\
  ((0 <= vstack_api.id (sample_vmdata 7 Status.Started) /\
    0 <= vstack_api.cpus (sample_vmdata 7 Status.Started) /\
    0 <= vstack_api.ram (sample_vmdata 7 Status.Started) /\
    0 <= vstack_api.cpu_priority (sample_vmdata 7 Status.Started) /\
    0 <= vstack_api.boot_media_id (sample_vmdata 7 Status.Started) /\
    0 <= vstack_api.vcpu_class (sample_vmdata 7 Status.Started) /\
    0 <= vstack_api.os_type (sample_vmdata 7 Status.Started) /\
    0 <= vstack_api.vdc (sample_vmdata 7 Status.Started) /\
    0 <= vstack_api.admin_status (sample_vmdata 7 Status.Started) /\
    0 <= vstack_api.node (sample_vmdata 7 Status.Started) /\
    0 <= vstack_api.create_completed (sample_vmdata 7 Status.Started) /\
    0 <= vstack_api.locked (sample_vmdata 7 Status.Started) /\
    0 <= vstack_api.status (sample_vmdata 7 Status.Started) /\
    0 <= vstack_api.oper_status (sample_vmdata 7 Status.Started)) /\
   ID (fst (MapRespToState (sample_vmdata 7 Status.Started) null_state)) =
     Some (vstack_api.id (sample_vmdata 7 Status.Started)) /\
   OperStatus (fst (MapRespToState (sample_vmdata 7 Status.Started) null_state)) =
     Some (vstack_api.oper_status (sample_vmdata 7 Status.Started)) /\
   RAM (fst (MapRespToState (sample_vmdata 7 Status.Started) null_state)) =
     Some (vstack_api.ram (sample_vmdata 7 Status.Started) / 2 ^ 20) /\
   Disks (fst (MapRespToState (sample_vmdata 7 Status.Started) null_state)) =
     map map_one_disk (vstack_api.disks (sample_vmdata 7 Status.Started)) /\
   Action (fst (MapRespToState (sample_vmdata 7 Status.Started) null_state)) =
     Some (getActionFromStatus (vstack_api.oper_status (sample_vmdata 7 Status.Started)))).
Proof.
  assert (H : snd (MapRespToState (sample_vmdata 7 Status.Started) null_state) = None)
    by (vm_compute; reflexivity).
  split; [exact H|]. exact (MapRespToState_success _ _ H).
Defined.

(** The guest block after a successful mapping: null when the response
    has no guest, even if the prior state had one.  Otherwise the telemetry
    (RAM used, balloon) comes from the response; the hostname, boot and run
    commands and resolver are kept from the prior guest (null without one);
    the users are the prior guest's when it has some, and otherwise a
    non-nil empty map (persisted as an empty map, not null), also when the
    prior users map is nil; a null or missing SSH password flag becomes 0. *)
Theorem MapRespToState_guest d st :
  snd (MapRespToState d st) = None ->
  (vstack_api.guest d = None -> Guest (fst (MapRespToState d st)) = None) /\
  (forall g, vstack_api.guest d = Some g -> Guest st = None ->
     Guest (fst (MapRespToState d st)) =
       Some (mkGuestModel (Some ∅) (Some 0) None None None None
               (Some (vstack_api.ram_used g)) (Some (vstack_api.ram_balloon_performed g))
               (Some (vstack_api.ram_balloon_requested g)))) /\
  (forall g pg, vstack_api.guest d = Some g -> Guest st = Some pg ->
     exists g', Guest (fst (MapRespToState d st)) = Some g' /\
       Users g' = Some (default ∅ (Users pg)) /\
       Hostname g' = Hostname pg /\ BootCmds g' = BootCmds pg /\
       RunCmds g' = RunCmds pg /\ Resolver g' = Resolver pg /\
       SSHPasswordAuth g' = Some (ValueInt64 (SSHPasswordAuth pg)) /\
       RamUsed g' = Some (vstack_api.ram_used g) /\
       RamBallonPerformed g' = Some (vstack_api.ram_balloon_performed g) /\
       RamBallonRequested g' = Some (vstack_api.ram_balloon_requested g)).
Proof.
  unfold MapRespToState. cbv zeta.
  destruct (first_error _) as [e|] eqn:Ef; [discriminate|].
  destruct (MapDisksToModel (vstack_api.disks d)) as [e|ds] eqn:Ed; [discriminate|].
  intros _. cbn [fst Guest]. split; [intros ->; reflexivity|].
  split; [intros g -> ->; reflexivity|].
  intros g pg -> ->. eexists. split; [reflexivity|]. cbn.
  split.
  - destruct (Users pg) as [u|]; [|reflexivity]. cbn.
    destruct (map_size u) eqn:Hs; [|reflexivity].
    f_equal. symmetry. apply map_size_empty_inv. exact Hs.
  - repeat split. by destruct (SSHPasswordAuth pg).
Qed.

Lemma MapRespToState_guest_witness :
  let vm := vstack_api.mkVmData 0 0 0 0 0 None [] 7 0 "" 0 Status.Started "" 0 "" 0 "" "" 0 ""
              0 0 (Some (vstack_api.mkVmGuest 1 2 3)) in
  let st := mkVM (Some 7) None None None None None None None None None None None None None
              None None None None None None None None
              (Some (mkGuestModel None None None None None (Some "h") None None None)) [] in
  snd (MapRespToState vm st) = None /\
  ((vstack_api.guest vm = None -> Guest (fst (MapRespToState vm st)) = None) /\
   (forall g, vstack_api.guest vm = Some g -> Guest st = None ->
      Guest (fst (MapRespToState vm st)) =
        Some (mkGuestModel (Some ∅) (Some 0) None None None None
                (Some (vstack_api.ram_used g)) (Some (vstack_api.ram_balloon_performed g))
                (Some (vstack_api.ram_balloon_requested g)))) /\
   (forall g pg, vstack_api.guest vm = Some g -> Guest st = Some pg ->
      exists g', Guest (fst (MapRespToState vm st)) = Some g' /\
        Users g' = Some (default ∅ (Users pg)) /\
        Hostname g' = Hostname pg /\ BootCmds g' = BootCmds pg /\
        RunCmds g' = RunCmds pg /\ Resolver g' = Resolver pg /\
        SSHPasswordAuth g' = Some (ValueInt64 (SSHPasswordAuth pg)) /\
        RamUsed g' = Some (vstack_api.ram_used g) /\
        RamBallonPerformed g' = Some (vstack_api.ram_balloon_performed g) /\
        RamBallonRequested g' = Some (vstack_api.ram_balloon_requested g))).
Proof.
  intros vm st.
  assert (H : snd (MapRespToState vm st) = None) by (vm_compute; reflexivity).
  split; [exact H|]. exact (MapRespToState_guest _ _ H).
Defined.

(** ** Disk removals of [UpdateDisks] *)

Lemma add_disk_request_method state disk :
  method (add_disk_request state disk) = "vms-add-disk".
Proof. unfold add_disk_request. by destruct (add_disk_sector_size disk). Qed.

Lemma addNewDisk_appends P remote state disk :
  P (add_disk_request state disk) -> appends P (addNewDisk remote state disk).
Proof.
  intros H. unfold addNewDisk. apply appends_bind; [by apply appends_msg_call|].
  intros r. apply appends_bind; [apply appends_or_fail|]. intros. apply appends_ret.
Qed.

Lemma reconcile_one_no_remove remote state byslot disk :
  appends (fun c => is_remove_disk c = false) (reconcile_one remote state byslot disk).
Proof.
  unfold reconcile_one. destruct (byslot !! ValueInt64 (Slot disk)).
  - unfold updateExistingDisk. cbv zeta. appends_auto.
  - apply addNewDisk_appends. unfold is_remove_disk. by rewrite add_disk_request_method.
Qed.

Lemma remove_one_disk_removes remote state slots sd :
  appends (fun c => is_remove_disk c = false \/
                    (c = remove_disk_req state sd /\
                     default false (slots !! ValueInt64 (Slot sd)) = false))
    (remove_one_disk remote state slots sd).
Proof.
  unfold remove_one_disk. cbv zeta.
  destruct (default false (slots !! ValueInt64 (Slot sd))) eqn:Hd; cbn [negb];
  appends_auto;
  apply appends_DoRequest; first [left; reflexivity | right; split; reflexivity].
Qed.

Lemma map_slot_defaulted plan : map slot_of (defaulted_disks plan) = map slot_of (Disks plan).
Proof.
  unfold defaulted_disks. rewrite map_map. apply map_ext. apply slot_ApplyDefaultSectorSize.
Qed.

(** Every [vm-remove-disk] call of [UpdateDisks] removes a disk of the
    state whose slot no planned disk has, by that disk's GUID; a disk whose
    slot is planned is never removed. *)
Theorem UpdateDisks_removes_only_unplanned remote plan state :
  appends (fun c => is_remove_disk c = true ->
             exists sd, In sd (Disks state) /\ ~ In (slot_of sd) (map slot_of (Disks plan)) /\
                        c = remove_disk_req state sd)
    (UpdateDisks remote plan state).
Proof.
  unfold UpdateDisks. cbv zeta. apply appends_bind.
  - eapply appends_mono; [|apply reconcile_loop_appends; intros; apply reconcile_one_no_remove].
    intros c Hc Ht. congruence.
  - intros _. unfold removeDisksNotInPlan. apply remove_loop_appends. intros sd Hin.
    eapply appends_mono; [|apply remove_one_disk_removes].
    intros c [Hc|[-> Hd]] Ht; [congruence|].
    exists sd. split; [exact Hin|]. split; [|reflexivity].
    intros Hs. rewrite <- map_slot_defaulted in Hs. apply slots_of_in in Hs.
    unfold slot_of in Hs. rewrite Hs in Hd. discriminate.
Qed.

(** [UpdateDisks] on a VM whose state records the operational status
    [Offline] makes no start or stop call: disk removals are not bracketed
    by [vms-stop] and [vms-restart]. *)
Theorem UpdateDisks_offline_no_action remote plan state :
  OperStatus state = Some Status.Offline ->
  appends (fun c => is_action_call c = false) (UpdateDisks remote plan state).
Proof.
  intros Ho. unfold UpdateDisks. cbv zeta. apply appends_bind.
  - apply reconcile_loop_appends. intros d _.
    unfold reconcile_one. destruct (_ !! _).
    + unfold updateExistingDisk. cbv zeta. appends_auto.
    + apply addNewDisk_appends. unfold is_action_call. by rewrite add_disk_request_method.
  - intros _. unfold removeDisksNotInPlan. apply remove_loop_appends. intros sd _.
    assert (E : negb (ValueInt64 (OperStatus state) =? Status.Offline) = false)
      by (rewrite Ho; reflexivity).
    unfold remove_one_disk. cbv zeta. rewrite E.
    appends_auto.
Qed.

Lemma UpdateDisks_offline_no_action_witness :
  let st := sample_state Status.Offline "" [sample_disk "g1" 1 10 TNull] in
  OperStatus st = Some Status.Offline /\
  appends (fun c => is_action_call c = false)
    (UpdateDisks (echo_remote (sample_vmdata 7 Status.Offline))
       (sample_state Status.Offline "" []) st).
Proof.
  intros st. assert (H : OperStatus st = Some Status.Offline) by reflexivity.
  split; [exact H|]. apply UpdateDisks_offline_no_action; exact H.
Defined.

(** ** Unsupported actions in [Create] and [Update] *)

(** [Create] with an ASCII action that is not "start", "stop" or empty
    (after lowering) still creates the VM: it makes the [vms-create] call and,
    once that succeeds with a non-zero id, fails with "Invalid Action"
    without any further call (the created VM is neither started, stopped
    nor read back). *)
Theorem Create_unsupported_action remote plan g c d tr :
  is_ascii (ValueString (Action plan)) = true ->
  Guest plan = Some g ->
  remote tr (create_request (create_plan plan) g) = ROk c (DVm d) ->
  CodeAsInt c = 1 -> vstack_api.id d <> 0 ->
  ToLower (ValueString (Action plan)) <> "start" ->
  ToLower (ValueString (Action plan)) <> "stop" ->
  ToLower (ValueString (Action plan)) <> "" ->
  Create remote plan tr =
    (tr ++ [create_request (create_plan plan) g],
     inl (mkDiag "Invalid Action" ("Unsupported action '" +:+ ToLower (ValueString (Action plan)) +:+
                                   "'. Supported actions are 'start' or 'stop'."))).
Proof.
  intros _ Hg Hcr Hc Hid H1 H2 H3. unfold Create. cbv zeta.
  change (Guest (create_plan plan)) with (Guest plan). rewrite Hg.
  erewrite bind_inr by (apply VmCreate_ok; eassumption).
  cbv beta. erewrite bind_inr by reflexivity. cbv beta. cbn [vr_data data_vm].
  apply Z.eqb_neq in Hid. rewrite Hid.
  change (Action (create_plan plan)) with (Action plan).
  apply String.eqb_neq in H1. apply String.eqb_neq in H2. apply String.eqb_neq in H3.
  rewrite H1, H2, H3. reflexivity.
Qed.

Lemma Create_unsupported_action_witness :
  let pl := sample_state Status.Offline "Reboot" [] in
  let rm := echo_remote (sample_vmdata 7 Status.Created) in
  (is_ascii (ValueString (Action pl)) = true /\ Guest pl = Some sample_guest /\
   rm [] (create_request (create_plan pl) sample_guest) =
     ROk code_ok (DVm (sample_vmdata 7 Status.Created)) /\
   CodeAsInt code_ok = 1 /\ vstack_api.id (sample_vmdata 7 Status.Created) <> 0 /\
   ToLower (ValueString (Action pl)) <> "start" /\
   ToLower (ValueString (Action pl)) <> "stop" /\
   ToLower (ValueString (Action pl)) <> "") /\
  Create rm pl [] =
    ([] ++ [create_request (create_plan pl) sample_guest],
     inl (mkDiag "Invalid Action" ("Unsupported action '" +:+ ToLower (ValueString (Action pl)) +:+
                                   "'. Supported actions are 'start' or 'stop'."))).
Proof.
  intros pl rm.
  assert (H : is_ascii (ValueString (Action pl)) = true /\ Guest pl = Some sample_guest /\
              rm [] (create_request (create_plan pl) sample_guest) =
                ROk code_ok (DVm (sample_vmdata 7 Status.Created)) /\
              CodeAsInt code_ok = 1 /\ vstack_api.id (sample_vmdata 7 Status.Created) <> 0 /\
              ToLower (ValueString (Action pl)) <> "start" /\
              ToLower (ValueString (Action pl)) <> "stop" /\
              ToLower (ValueString (Action pl)) <> "").
  { split; [reflexivity|]. split; [reflexivity|]. split; [reflexivity|].
    split; [reflexivity|]. split; [discriminate|].
    split; [|split]; intros Heq; vm_compute in Heq; discriminate Heq. }
  split; [exact H|]. destruct H as (H0 & H1 & H2 & H3 & H4 & H5 & H6 & H7).
  exact (Create_unsupported_action rm pl sample_guest code_ok (sample_vmdata 7 Status.Created) []
           H0 H1 H2 H3 H4 H5 H6 H7).
Defined.

Lemma bind_fails {A B} (P : Call -> Prop) (m : M A) (k : A -> M B) tr :
  appends P m ->
  (forall a tr', exists new e, k a tr' = (tr' ++ new, inl e) /\ Forall P new) ->
  exists new e, bind m k tr = (tr ++ new, inl e) /\ Forall P new.
Proof.
  intros Hm Hk. destruct (Hm tr) as [n1 [H1 F1]]. unfold bind.
  destruct (m tr) as [tr1 [e|a]]; simpl in H1; subst tr1.
  - exists n1, e. auto.
  - destruct (Hk a (tr ++ n1)) as (n2 & e & H2 & F2). rewrite H2.
    exists (n1 ++ n2), e. rewrite app_assoc. split; [reflexivity|]. apply Forall_app; auto.
Qed.

(** [Update] of a VM with a non-zero id and an action that is not empty,
    "start" or "stop" (after lowering) never succeeds and never reads the
    VM back: it applies the disk and parameter changes, then fails, and none
    of its calls is a [vm-get]. *)
Theorem Update_unsupported_action_fails remote plan state tr :
  ValueInt64 (ID plan) <> 0 ->
  ToLower (ValueString (Action plan)) <> "" ->
  ToLower (ValueString (Action plan)) <> "start" ->
  ToLower (ValueString (Action plan)) <> "stop" ->
  exists new e, Update remote plan state tr = (tr ++ new, inl e) /\
    Forall (fun c => is_get c = false) new.
Proof.
  intros Hid H1 H2 H3. unfold Update. cbv zeta. apply Z.eqb_neq in Hid. rewrite Hid.
  apply bind_fails.
  - unfold UpdateDisks. cbv zeta. apply appends_bind.
    + apply reconcile_loop_appends. intros d _.
      unfold reconcile_one. destruct (_ !! _).
      * unfold updateExistingDisk. cbv zeta. appends_auto.
      * apply addNewDisk_appends. unfold is_get. by rewrite add_disk_request_method.
    + intros _. unfold removeDisksNotInPlan. apply remove_loop_appends. intros sd _.
      unfold remove_one_disk. cbv zeta. appends_auto.
  - intros _ tr1. apply bind_fails.
    + destruct (update_vm_params plan state); appends_auto.
    + intros _ tr2. apply String.eqb_neq in H1. apply String.eqb_neq in H2.
      apply String.eqb_neq in H3. rewrite H1, H2, H3.
      exists [], (mkDiag "Invalid Action" ("Unsupported action '" +:+
                    ToLower (ValueString (Action plan)) +:+
                    "'. Supported actions are 'start' and 'stop'.")).
      rewrite app_nil_r. split; [reflexivity | constructor].
Qed.

Lemma Update_unsupported_action_fails_witness :
  let st := sample_state Status.Started "Reboot" [] in
  (ValueInt64 (ID st) <> 0 /\ ToLower (ValueString (Action st)) <> "" /\
   ToLower (ValueString (Action st)) <> "start" /\ ToLower (ValueString (Action st)) <> "stop") /\
  exists new e, Update (echo_remote (sample_vmdata 7 Status.Started)) st st [] = ([] ++ new, inl e) /\
    Forall (fun c => is_get c = false) new.
Proof.
  intros st.
  assert (H : ValueInt64 (ID st) <> 0 /\ ToLower (ValueString (Action st)) <> "" /\
              ToLower (ValueString (Action st)) <> "start" /\
              ToLower (ValueString (Action st)) <> "stop").
  { split; [discriminate|]. split; [|split]; intros Heq; vm_compute in Heq; discriminate Heq. }
  split; [exact H|]. destruct H as (H1 & H2 & H3 & H4).
  exact (Update_unsupported_action_fails _ st st [] H1 H2 H3 H4).
Defined.

(** ** The NIC rate limit *)

(** [SetNicRatelimit] makes exactly one [vm-ratelimit-nic] call carrying
    the VM id, the port id and the limit, and fails only when that call
    fails at the transport or API level (the error wrapped by
    [VmRatelimitNic] and [SetNicRatelimit]); a response with any code counts
    as success. *)
Theorem SetNicRatelimit_result remote vmID portID mbits tr :
  SetNicRatelimit remote vmID portID mbits tr =
    (tr ++ [nic_ratelimit_req vmID portID mbits],
     inr (match remote tr (nic_ratelimit_req vmID portID mbits) with
          | RErr e => Some ("SetNicRatelimit: error from API: VmRatelimitNic: " +:+ e)
          | ROk _ _ => None
          end)).
Proof.
  unfold SetNicRatelimit, VmRatelimitNic, msg_call, bind, DoRequest, ret, nic_ratelimit_req.
  destruct (remote tr _); reflexivity.
Qed.
